(** * student_attendance: face matching and attendance state

    A shallow embedding of [student_attendance_interfaces/models.py] and
    [student_attendance_interfaces/services/face_recognition_service.py],
    with the two call sites in [views.py] that the service is compared
    against.

    Conventions of the embedding.
    - numpy [float64] values (encodings, distances, confidence, percentage)
      are idealised as real numbers [R]; rounding, infinities and NaN are
      outside the model.
    - A database table is the list of its rows, oldest first.  [Meta.ordering]
      of a model only permutes the rows a queryset yields and is not modelled.
    - Values handed to [cv2], [face_recognition] and [pickle] are described by
      what those libraries return on them ([Frame], [Image], [Blob]).
    - [timezone.now()] is an argument of the function that reads it. *)

From Stdlib Require Import List String ZArith Reals Lra Lia Bool Arith.
Import ListNotations.

(* ================================================================== *)
(** * External libraries                                                *)
(* ================================================================== *)

Definition encoding := list R.

Definition bytes := list Byte.byte.

(** An uploaded picture, as [face_recognition.load_image_file] followed by
    [face_recognition.face_encodings] sees it. *)
Inductive Image : Type :=
| Unreadable                          (* loading raises *)
| Decoded (faces : list encoding).    (* the encodings found, in order *)

(** A video frame (numpy array), as [cv2] and [face_recognition] see it. *)
Inductive Frame : Type :=
| BadFrame                            (* cv2.cvtColor / cv2.imencode raise *)
| GoodFrame (faces : list encoding)   (* face_encodings(rgb_frame, ...) *)
            (jpeg : option bytes).    (* imencode: (False, _) or (True, buf) *)

(** The content of a [BinaryField], as [pickle.loads] sees it. *)
Inductive Blob : Type :=
| EmptyBlob                           (* b'' : falsy *)
| CorruptBlob                         (* pickle.loads raises *)
| PickledBlob (e : encoding).         (* pickle.dumps(e) *)

Definition pickle_dumps (e : encoding) : Blob := PickledBlob e.

Definition pickle_loads (b : Blob) : option encoding :=
  match b with
  | PickledBlob e => Some e
  | _ => None
  end.

(** numpy / face_recognition arithmetic. *)
Module Np.
Local Open Scope R_scope.

Fixpoint sum_sq_diff (a b : encoding) : R :=
  match a, b with
  | x :: a', y :: b' => (x - y) * (x - y) + sum_sq_diff a' b'
  | _, _ => 0
  end.

(** [np.linalg.norm(a - b)] for two vectors of one length. *)
Definition norm_diff (a b : encoding) : R := sqrt (sum_sq_diff a b).

(** [face_recognition.face_distance(face_encodings, face_to_compare)]:
    the Euclidean distance of every row to the query. *)
Definition face_distance (face_encodings : list encoding)
                         (face_to_compare : encoding) : list R :=
  map (fun k => norm_diff k face_to_compare) face_encodings.

(** [np.argmin]: index of the first occurrence of the minimum. *)
Fixpoint argmin_from (best : nat) (bestv : R) (i : nat) (l : list R) : nat :=
  match l with
  | [] => best
  | x :: l' =>
      if Rlt_dec x bestv then argmin_from i x (S i) l'
      else argmin_from best bestv (S i) l'
  end.

Definition argmin (l : list R) : nat :=
  match l with
  | [] => 0%nat
  | x :: l' => argmin_from 0 x 1 l'
  end.
End Np.

(* ================================================================== *)
(** * models.py                                                         *)
(* ================================================================== *)

(** Result of [Model.objects.get(...)]. *)
Inductive get_result (A : Type) : Type :=
| Got (a : A)
| DoesNotExist
| MultipleObjectsReturned.
Arguments Got {A} a.
Arguments DoesNotExist {A}.
Arguments MultipleObjectsReturned {A}.

Definition objects_get {A : Type} (p : A -> bool) (rows : list A) : get_result A :=
  match filter p rows with
  | [] => DoesNotExist
  | [a] => Got a
  | _ => MultipleObjectsReturned
  end.

(** Value of a fresh [AutoField]: above every id in the table. *)
Definition next_id (ids : list nat) : nat := S (fold_right Nat.max 0%nat ids).

Module Student.
Record t : Type := mk {
  student_id : string;          (* primary key *)
  course : string;              (* Course.code *)
  is_active : bool
}.
End Student.

Inductive Angle : Type := front | left | right.

Definition Angle_eqb (a b : Angle) : bool :=
  match a, b with
  | front, front | left, left | right, right => true
  | _, _ => false
  end.

Module FaceImage.
Record t : Type := mk {
  id : nat;
  student : string;             (* foreign key to Student *)
  angle : Angle;
  image : Image;
  face_encoding : option Blob;  (* null=True *)
  is_active : bool              (* default=True *)
}.
End FaceImage.

Inductive SessionStatus : Type := active | completed | cancelled.

Module AttendanceSession.
Record t : Type := mk {
  id : nat;
  session_name : string;
  course : string;
  start_time : Z;
  end_time : Z;
  status : SessionStatus
}.

Definition is_active (self : t) (now : Z) : bool :=
  match status self with
  | active => ((start_time self <=? now) && (now <=? end_time self))%Z
  | _ => false
  end.
End AttendanceSession.

Inductive AttendanceStatus : Type := present | absent.

(** The file stored in [SessionLog.recognized_image]. *)
Record Evidence : Type := mkEvidence {
  evidence_student : string;      (* f"{student_id}_..." *)
  evidence_time : Z;              (* timezone.now() in the file name *)
  evidence_jpeg : bytes
}.

Module SessionLog.
Record t : Type := mk {
  id : nat;
  session : nat;                (* foreign key to AttendanceSession *)
  student : string;             (* foreign key to Student *)
  status : AttendanceStatus;
  recognized_at : option Z;
  confidence_score : option R;
  recognized_image : option Evidence
}.

Definition set_recognized_image (self : t) (img : Evidence) : t :=
  mk (id self) (session self) (student self) (status self)
     (recognized_at self) (confidence_score self) (Some img).

(** Truth value of the [confidence] argument: [None] and [0.0] are falsy. *)
Definition truthy_float (c : option R) : bool :=
  match c with
  | None => false
  | Some x => if Req_dec_T x 0%R then false else true
  end.

(** The assignments of [mark_present]; [self.save()] is {!save} below. *)
Definition mark_present (self : t) (confidence : option R)
                        (image : option Evidence) (now : Z) : t :=
  mk (id self) (session self) (student self)
     present
     (Some now)
     (if truthy_float confidence then confidence else confidence_score self)
     (match image with Some i => Some i | None => recognized_image self end).
End SessionLog.

Record Database : Type := mkDatabase {
  students : list Student.t;
  face_images : list FaceImage.t;
  session_logs : list SessionLog.t
}.

Definition with_face_images (db : Database) (l : list FaceImage.t) : Database :=
  mkDatabase (students db) l (session_logs db).

Definition with_session_logs (db : Database) (l : list SessionLog.t) : Database :=
  mkDatabase (students db) (face_images db) l.

(** [instance.save()] of an existing row: the row of that id is rewritten. *)
Definition save_log (log : SessionLog.t) (rows : list SessionLog.t) : list SessionLog.t :=
  map (fun r => if SessionLog.id r =? SessionLog.id log then log else r) rows.

Definition save_face (fi : FaceImage.t) (rows : list FaceImage.t) : list FaceImage.t :=
  map (fun r => if FaceImage.id r =? FaceImage.id fi then fi else r) rows.

Definition delete_face (fi : FaceImage.t) (rows : list FaceImage.t) : list FaceImage.t :=
  filter (fun r => negb (FaceImage.id r =? FaceImage.id fi)) rows.

Definition pk_is (sid : string) (s : Student.t) : bool :=
  String.eqb (Student.student_id s) sid.

(** [Student.objects.filter(is_active=True, course=c)] *)
Definition active_in_course (c : string) (s : Student.t) : bool :=
  Student.is_active s && String.eqb (Student.course s) c.

Definition log_of (session_id : nat) (sid : string) (r : SessionLog.t) : bool :=
  (SessionLog.session r =? session_id) && String.eqb (SessionLog.student r) sid.

Definition is_present (r : SessionLog.t) : bool :=
  match SessionLog.status r with present => true | absent => false end.

Module Statistics.
Record t : Type := mk {
  total_students : Z;
  present_count : Z;
  absent_count : Z;
  attendance_percentage : R
}.
End Statistics.

(** [AttendanceSession.get_attendance_statistics] *)
Definition get_attendance_statistics (db : Database) (self : AttendanceSession.t)
  : Statistics.t :=
  let total_students :=
    Z.of_nat (List.length (filter (active_in_course (AttendanceSession.course self))
                             (students db))) in
  let present_count :=
    Z.of_nat (List.length (filter (fun r => (SessionLog.session r =? AttendanceSession.id self)
                                       && is_present r)
                             (session_logs db))) in
  let absent_count := (total_students - present_count)%Z in
  Statistics.mk total_students present_count absent_count
    (if (0 <? total_students)%Z
     then (IZR present_count / IZR total_students * 100)%R
     else 0%R).

(** [SessionLog.objects.get_or_create(session=, student=, defaults={'status':
    'absent'})].  [None] stands for [MultipleObjectsReturned] propagating. *)
Definition get_or_create (db : Database) (session : AttendanceSession.t)
                         (student : Student.t)
  : option (Database * SessionLog.t * bool) :=
  match objects_get (log_of (AttendanceSession.id session) (Student.student_id student))
                    (session_logs db) with
  | Got log => Some (db, log, false)
  | DoesNotExist =>
      let log := SessionLog.mk (next_id (map SessionLog.id (session_logs db)))
                               (AttendanceSession.id session)
                               (Student.student_id student)
                               absent None None None in
      Some (with_session_logs db (session_logs db ++ [log]), log, true)
  | MultipleObjectsReturned => None
  end.

(* ================================================================== *)
(** * services/face_recognition_service.py                              *)
(* ================================================================== *)

Inductive DetectorModel : Type := hog | cnn.

Definition angle_name (a : Angle) : string :=
  match a with
  | front => "front"
  | left => "left"
  | right => "right"
  end.

(** Python truth value of a [str]. *)
Definition truthy_str (s : string) : bool := negb (String.eqb s "").

(** Membership in a Python [set] of strings. *)
Definition in_set (s : string) (l : list string) : bool := existsb (String.eqb s) l.

Module FaceRecognitionService.

Record t : Type := mk {
  tolerance : R;
  model : DetectorModel
}.

(** [__init__] *)
Definition init : t := mk (6 / 10)%R hog.

(** [encode_face]: the first encoding, [None] when there is none or when
    loading raises. *)
Definition encode_face (image : Image) : option encoding :=
  match image with
  | Unreadable => None
  | Decoded face_encodings =>
      match face_encodings with
      | e :: _ => Some e
      | [] => None
      end
  end.

Record Results : Type := mkResults {
  success : bool;
  images : list (Angle * FaceImage.t);
  errors : list string
}.

(** One iteration of the loop of [save_student_face_images].  Nothing in
    the [try] block raises in this model ([encode_face] catches its own
    exceptions), so the [except] clause has no counterpart. *)
Definition save_angle (student : Student.t) (acc : Database * Results)
                      (entry : Angle * Image) : Database * Results :=
  let '(db, results) := acc in
  let '(angle, image_file) := entry in
  (* FaceImage.objects.create(student=, angle=, image=) *)
  let face_image :=
    FaceImage.mk (next_id (map FaceImage.id (face_images db)))
                 (Student.student_id student) angle image_file None true in
  let db1 := with_face_images db (face_images db ++ [face_image]) in
  match encode_face image_file with
  | Some encoding =>
      let face_image' :=
        FaceImage.mk (FaceImage.id face_image) (FaceImage.student face_image)
                     angle image_file (Some (pickle_dumps encoding)) true in
      (with_face_images db1 (save_face face_image' (face_images db1)),
       mkResults (success results)
                 (images results ++ [(angle, face_image')])
                 (errors results))
  | None =>
      (with_face_images db1 (delete_face face_image (face_images db1)),
       mkResults false
                 (images results)
                 (errors results
                    ++ [("No face detected in " ++ angle_name angle ++ " image")%string]))
  end.

(** [save_student_face_images] *)
Definition save_student_face_images (db : Database) (student : Student.t)
                                    (front_image left_image right_image : Image)
  : Database * Results :=
  fold_left (save_angle student)
            [(front, front_image); (left, left_image); (right, right_image)]
            (db, mkResults true [] []).

(** The rows of [FaceImage] joined with their student
    ([select_related('student')]). *)
Definition select_related_student (db : Database) (rows : list FaceImage.t)
  : list (FaceImage.t * Student.t) :=
  flat_map (fun fi =>
              match find (pk_is (FaceImage.student fi)) (students db) with
              | Some s => [(fi, s)]
              | None => []
              end) rows.

(** Truth value of [face_img.face_encoding]. *)
Definition truthy_blob (b : option Blob) : option Blob :=
  match b with
  | Some EmptyBlob => None
  | other => other
  end.

(** Body of the loop of [load_known_faces]. *)
Definition load_one (acc : list encoding * list string)
                    (row : FaceImage.t * Student.t) : list encoding * list string :=
  let '(known_encodings, known_student_ids) := acc in
  let '(face_img, student) := row in
  match truthy_blob (FaceImage.face_encoding face_img) with
  | Some blob =>
      match pickle_loads blob with
      | Some encoding =>
          (known_encodings ++ [encoding],
           known_student_ids ++ [Student.student_id student])
      | None => acc                 (* except Exception: print *)
      end
  | None => acc
  end.

(** [load_known_faces(course=None)] *)
Definition load_known_faces (db : Database) (course : option string)
  : list encoding * list string :=
  let query :=
    filter (fun row : FaceImage.t * Student.t =>
              Angle_eqb (FaceImage.angle (fst row)) front
              && FaceImage.is_active (fst row)
              && Student.is_active (snd row))
           (select_related_student db (face_images db)) in
  let query :=
    match course with
    | Some c => filter (fun row : FaceImage.t * Student.t =>
                          String.eqb (Student.course (snd row)) c) query
    | None => query
    end in
  fold_left load_one query ([], []).

(** Lines 123-133 of [recognize_face_from_frame]: the comparison of one
    face encoding with the known set.  An [IndexError] of
    [known_student_ids[best_match_index]] is caught by the enclosing
    [except] and gives [(None, None)]. *)
Definition match_face (self : t) (face_encoding : encoding)
                      (known_encodings : list encoding)
                      (known_student_ids : list string) : option (string * R) :=
  let face_distances := Np.face_distance known_encodings face_encoding in
  if (0 <? List.length face_distances)%nat then
    let best_match_index := Np.argmin face_distances in
    let confidence := (1 - nth best_match_index face_distances 0)%R in
    if Rle_dec (nth best_match_index face_distances 0%R) (tolerance self) then
      match nth_error known_student_ids best_match_index with
      | Some student_id => Some (student_id, confidence)
      | None => None
      end
    else None
  else None.

(** [recognize_face_from_frame]; [None] is the pair [(None, None)]. *)
Definition recognize_face_from_frame (self : t) (frame : Frame)
                                     (known_encodings : list encoding)
                                     (known_student_ids : list string)
  : option (string * R) :=
  match frame with
  | BadFrame => None
  | GoodFrame face_encodings _ =>
      match face_encodings with
      | [] => None
      | face_encoding :: _ =>
          match_face self face_encoding known_encodings known_student_ids
      end
  end.

(** [mark_attendance].  The second component is the returned
    [SessionLog], [None] for Python's [None].  Rows written before an
    exception stay written. *)
Definition mark_attendance (db : Database) (session : AttendanceSession.t)
                           (student_id : string) (confidence : R)
                           (frame : option Frame) (now_file now_mark : Z)
  : Database * option SessionLog.t :=
  match objects_get (pk_is student_id) (students db) with
  | DoesNotExist => (db, None)               (* except Student.DoesNotExist *)
  | MultipleObjectsReturned => (db, None)    (* except Exception *)
  | Got student =>
      match get_or_create db session student with
      | None => (db, None)                   (* except Exception *)
      | Some (db1, session_log, _) =>
          let attached :=
            match frame with
            | None => Some session_log
            | Some BadFrame => None          (* cv2.imencode raises *)
            | Some (GoodFrame _ None) => Some session_log
            | Some (GoodFrame _ (Some buffer)) =>
                Some (SessionLog.set_recognized_image session_log
                        (mkEvidence student_id now_file buffer))
            end in
          match attached with
          | None => (db1, None)              (* except Exception *)
          | Some session_log1 =>
              let session_log2 :=
                SessionLog.mark_present session_log1 (Some confidence) None now_mark in
              (with_session_logs db1 (save_log session_log2 (session_logs db1)),
               Some session_log2)
          end
      end
  end.

(** Loop of [initialize_session_logs]; an exception of [get_or_create]
    propagates ([None]). *)
Fixpoint initialize_loop (db : Database) (session : AttendanceSession.t)
                         (students : list Student.t)
                         (session_logs : list SessionLog.t)
  : Database * option (list SessionLog.t) :=
  match students with
  | [] => (db, Some session_logs)
  | student :: rest =>
      match get_or_create db session student with
      | Some (db', log, _) => initialize_loop db' session rest (session_logs ++ [log])
      | None => (db, None)
      end
  end.

(** [initialize_session_logs] *)
Definition initialize_session_logs (db : Database) (session : AttendanceSession.t)
  : Database * option (list SessionLog.t) :=
  initialize_loop db session (filter Student.is_active (students db)) [].

(** What one iteration of the loop of [process_video_stream] reads from
    its environment. *)
Record Tick : Type := mkTick {
  tick_now : Z;                  (* timezone.now() in session.is_active() *)
  tick_frame : option Frame;     (* cap.read(): None when ret is false *)
  tick_file_now : Z;             (* timezone.now() in the evidence file name *)
  tick_mark_now : Z;             (* timezone.now() in mark_present *)
  tick_key : Z                   (* cv2.waitKey(1) *)
}.

(** The variables of a run.  [mark_calls] is not in the source: it records
    the student id of every call of [mark_attendance], oldest first. *)
Record Run : Type := mkRun {
  run_db : Database;
  recognized_students : list string;
  mark_calls : list string
}.

Inductive Flow : Type :=
| Continue (st : Run)
| Break (st : Run).

(** One iteration of [while session.is_active(): ...]. *)
Definition stream_body (self : t) (session : AttendanceSession.t)
                       (known_encodings : list encoding)
                       (known_student_ids : list string)
                       (tick : Tick) (st : Run) : Flow :=
  if AttendanceSession.is_active session (tick_now tick) then
    match tick_frame tick with
    | None => Break st
    | Some frame =>
        let st' :=
          match recognize_face_from_frame self frame known_encodings known_student_ids with
          | Some (student_id, confidence) =>
              if truthy_str student_id
                 && negb (in_set student_id (recognized_students st)) then
                let (db', session_log) :=
                  mark_attendance (run_db st) session student_id confidence
                                  (Some frame) (tick_file_now tick) (tick_mark_now tick) in
                mkRun db'
                      (match session_log with
                       | Some _ => student_id :: recognized_students st
                       | None => recognized_students st
                       end)
                      (mark_calls st ++ [student_id])
              else st
          | None => st
          end in
        match frame with
        | BadFrame => Break st'        (* cv2.imshow raises: the run ends *)
        | GoodFrame _ _ =>
            if (Z.land (tick_key tick) 255 =? 113)%Z then Break st' else Continue st'
        end
    end
  else Break st.

Fixpoint stream_loop (self : t) (session : AttendanceSession.t)
                     (known_encodings : list encoding)
                     (known_student_ids : list string)
                     (ticks : list Tick) (st : Run) : Run :=
  match ticks with
  | [] => st
  | tick :: rest =>
      match stream_body self session known_encodings known_student_ids tick st with
      | Continue st' =>
          stream_loop self session known_encodings known_student_ids rest st'
      | Break st' => st'
      end
  end.

(** The known set a run of [process_video_stream] works with (line 196). *)
Definition stream_known_faces (db : Database) (session : AttendanceSession.t)
  : list encoding * list string :=
  load_known_faces db None.

(** [process_video_stream] over the ticks its environment provides. *)
Definition process_video_stream (self : t) (db : Database)
                                (session : AttendanceSession.t)
                                (ticks : list Tick) : Run :=
  let (known_encodings, known_student_ids) := stream_known_faces db session in
  if (List.length known_encodings =? 0)%nat then mkRun db [] []
  else stream_loop self session known_encodings known_student_ids ticks
                   (mkRun db [] []).

End FaceRecognitionService.

(* ================================================================== *)
(** * views.py: the call sites the service is compared with            *)
(* ================================================================== *)

Module Views.

(** [create_session], lines 177-186: one [SessionLog.objects.create] per
    active student of the session's course.  [None] is the
    [IntegrityError] of [unique_together]. *)
Fixpoint create_logs (db : Database) (session : AttendanceSession.t)
                     (students : list Student.t) : option Database :=
  match students with
  | [] => Some db
  | student :: rest =>
      if existsb (log_of (AttendanceSession.id session) (Student.student_id student))
                 (session_logs db)
      then None
      else
        let log := SessionLog.mk (next_id (map SessionLog.id (session_logs db)))
                                 (AttendanceSession.id session)
                                 (Student.student_id student)
                                 absent None None None in
        create_logs (with_session_logs db (session_logs db ++ [log])) session rest
  end.

Definition create_session_logs (db : Database) (session : AttendanceSession.t)
  : option Database :=
  create_logs db session
    (filter (active_in_course (AttendanceSession.course session)) (students db)).

(** [recognize_face_api], line 503: the known set of the single-frame path. *)
Definition frame_known_faces (db : Database) (session : AttendanceSession.t)
  : list encoding * list string :=
  FaceRecognitionService.load_known_faces db (Some (AttendanceSession.course session)).

End Views.

(* ================================================================== *)
(** * The rest of the service and of the views                          *)
(* ================================================================== *)

(** What one iteration of the loop of [capture_multi_angle_images] reads. *)
Record CaptureTick : Type := mkCaptureTick {
  capture_frame : option Frame;    (* cap.read(): None when ret is false *)
  capture_key : Z                  (* cv2.waitKey(1) *)
}.

(** How [capture_multi_angle_images] ends on a finite sequence of ticks:
    it returns the dictionary of images, returns [None], lets the
    exception of [cv2] on a rejected frame escape (there is no [except]),
    or is still in its loop when the ticks are used up. *)
Inductive CaptureResult : Type :=
| CaptureImages (images : list (Angle * Frame))
| CaptureNone
| CaptureRaises
| CaptureWaiting (images : list (Angle * Frame)).

(** [return images if len(images) == 3 else None] *)
Definition capture_return (images : list (Angle * Frame)) : CaptureResult :=
  if (List.length images =? 3)%nat then CaptureImages images else CaptureNone.

(** The loop [while current_angle_index < len(angles)]; [todo] is
    [angles[current_angle_index:]].  The image stored for an angle is the
    frame on which the instructions were drawn. *)
Fixpoint capture_loop (ticks : list CaptureTick) (todo : list Angle)
                      (images : list (Angle * Frame)) : CaptureResult :=
  match todo with
  | [] => capture_return images
  | current_angle :: later =>
      match ticks with
      | [] => CaptureWaiting images
      | tick :: rest =>
          match capture_frame tick with
          | None => capture_return images              (* not ret: break *)
          | Some BadFrame => CaptureRaises             (* cv2.putText raises *)
          | Some (GoodFrame faces jpeg) =>
              let key := Z.land (capture_key tick) 255 in
              if (key =? 32)%Z then
                capture_loop rest later
                             (images ++ [(current_angle, GoodFrame faces jpeg)])
              else if (key =? 113)%Z then CaptureNone
              else capture_loop rest todo images
          end
      end
  end.

(** [FaceRecognitionService.capture_multi_angle_images] *)
Definition capture_multi_angle_images (ticks : list CaptureTick) : CaptureResult :=
  capture_loop ticks [front; left; right] [].



(* ================================================================== *)
(** * A small database used in the examples                            *)
(* ================================================================== *)

Module Sample.

(** Two active students in two courses, each enrolled with a front image. *)
Definition alice : Student.t := Student.mk "S1" "COET" true.
Definition bob : Student.t := Student.mk "S2" "BIT" true.

Definition alice_front : FaceImage.t :=
  FaceImage.mk 1 "S1" front (Decoded [[0; 0]%R])
               (Some (PickledBlob [0; 0]%R)) true.
Definition bob_front : FaceImage.t :=
  FaceImage.mk 2 "S2" front (Decoded [[10; 10]%R])
               (Some (PickledBlob [10; 10]%R)) true.

Definition db : Database :=
  mkDatabase [alice; bob] [alice_front; bob_front] [].

(** A session of course COET, open from time 0 to time 100. *)
Definition lecture : AttendanceSession.t :=
  AttendanceSession.mk 1 "Lecture 1" "COET" 0 100 active.

(** Alice already marked present in the lecture, at time 5 with
    confidence 0.9. *)
Definition alice_present : SessionLog.t :=
  SessionLog.mk 1 1 "S1" present (Some 5%Z) (Some (9 / 10)%R) None.

Definition marked_db : Database :=
  mkDatabase [alice; bob] [alice_front; bob_front] [alice_present].

(** Two frames showing Alice, then a frame without a face. *)
Definition ticks : list FaceRecognitionService.Tick :=
  [FaceRecognitionService.mkTick 10 (Some (GoodFrame [[0; 0]%R] None)) 10 11 0;
   FaceRecognitionService.mkTick 12 (Some (GoodFrame [[0; 0]%R] None)) 12 13 0;
   FaceRecognitionService.mkTick 14 (Some (GoodFrame [] None)) 14 15 0].

(** Ten active COET students; the first three are present in session 1,
    the other seven absent. *)
Definition class_ids : list string :=
  ["c01"; "c02"; "c03"; "c04"; "c05"; "c06"; "c07"; "c08"; "c09"; "c10"]%string.

Definition class_log (n : nat) (sid : string) : SessionLog.t :=
  if n <? 3
  then SessionLog.mk (S n) 1 sid present (Some 10%Z) (Some (9 / 10)%R) None
  else SessionLog.mk (S n) 1 sid absent None None None.

Fixpoint class_logs (n : nat) (ids : list string) : list SessionLog.t :=
  match ids with
  | [] => []
  | sid :: rest => class_log n sid :: class_logs (S n) rest
  end.

Definition class_db : Database :=
  mkDatabase (map (fun sid => Student.mk sid "COET" true) class_ids)
             []
             (class_logs 0 class_ids).

(** A session of a course without students. *)
Definition empty_lecture : AttendanceSession.t :=
  AttendanceSession.mk 2 "Seminar" "BA" 0 100 active.

End Sample.

(* ================================================================== *)
(** * Vocabulary of the statements                                      *)
(* ================================================================== *)

(** Enrollment records of one (identity, angle). *)
Definition enrolled_as (sid : string) (a : Angle) (r : FaceImage.t) : bool :=
  String.eqb (FaceImage.student r) sid && Angle_eqb (FaceImage.angle r) a.

Definition stored_records (db : Database) (sid : string) (a : Angle) : nat :=
  List.length (filter (enrolled_as sid a) (face_images db)).

Definition active_records (db : Database) (sid : string) (a : Angle) : nat :=
  List.length (filter (fun r => enrolled_as sid a r && FaceImage.is_active r)
                      (face_images db)).

(** One call of [save_student_face_images], and a sequence of calls. *)
Record Enrollment : Type := mkEnrollment {
  enrolled_student : Student.t;
  front_image : Image;
  left_image : Image;
  right_image : Image
}.

Fixpoint enroll_all (db : Database) (history : list Enrollment) : Database :=
  match history with
  | [] => db
  | e :: rest =>
      enroll_all
        (fst (FaceRecognitionService.save_student_face_images
                db (enrolled_student e) (front_image e) (left_image e) (right_image e)))
        rest
  end.

(** Attendance records of one (session, identity). *)
Definition records_of (db : Database) (session_id : nat) (sid : string)
  : list SessionLog.t :=
  filter (log_of session_id sid) (session_logs db).

(** Counting by recursion, as the statements about statistics count. *)
Fixpoint count_if {A : Type} (p : A -> bool) (l : list A) : Z :=
  match l with
  | [] => 0
  | x :: l' => (if p x then 1 else 0) + count_if p l'
  end.

Definition log_key (r : SessionLog.t) : nat * string :=
  (SessionLog.session r, SessionLog.student r).

(** The constraints the schema declares: [student_id] and [SessionLog.id]
    are primary keys, [(session, student)] is [unique_together]. *)
Record integrity (db : Database) : Prop := mkIntegrity {
  student_pk : NoDup (map Student.student_id (students db));
  log_pk : NoDup (map SessionLog.id (session_logs db));
  log_unique_together : NoDup (map log_key (session_logs db))
}.

(** [p] is the part of the array already scanned, [b] the best index in it. *)
Definition scanned (p : list R) (b : nat) : Prop :=
  (b < List.length p)%nat
  /\ (forall j, (j < List.length p)%nat -> (nth b p 0 <= nth j p 0)%R)
  /\ (forall j, (j < b)%nat -> (nth b p 0 < nth j p 0)%R).

(** The record of [student] in [session] is [log], and it is stored. *)
Definition logged (db : Database) (session : AttendanceSession.t)
                  (student : Student.t) (log : SessionLog.t) : Prop :=
  In log (session_logs db)
  /\ log_key log = (AttendanceSession.id session, Student.student_id student).

(** What the loop maintains, for a run started on [db0]. *)
Record run_invariant (db0 : Database) (st : FaceRecognitionService.Run) : Prop := mkRunInvariant {
  run_integrity : integrity (FaceRecognitionService.run_db st);
  run_students : students (FaceRecognitionService.run_db st) = students db0;
  run_calls_once : NoDup (FaceRecognitionService.mark_calls st);
  run_calls_seen : forall sid, In sid (FaceRecognitionService.mark_calls st) -> In sid (FaceRecognitionService.recognized_students st)
}.

Definition flow_state (f : FaceRecognitionService.Flow) : FaceRecognitionService.Run :=
  match f with
  | FaceRecognitionService.Continue st => st
  | FaceRecognitionService.Break st => st
  end.

(** The picture shows a face that [encode_face] can encode. *)
Definition has_face (img : Image) : bool :=
  match FaceRecognitionService.encode_face img with
  | Some _ => true
  | None => false
  end.

(** The record [get_or_create] creates for a student without a record. *)
Definition absent_record (db : Database) (session : AttendanceSession.t)
                         (sid : string) : SessionLog.t :=
  SessionLog.mk (next_id (map SessionLog.id (session_logs db)))
                (AttendanceSession.id session) sid absent None None None.

(** The record [old] after a successful [mark_attendance]: present, stamped
    with the time of the call, with the confidence of the call unless that
    is zero, and with the encoded frame as evidence when there is one. *)
Definition marked (old : SessionLog.t) (sid : string) (confidence : R)
                  (frame : option Frame) (now_file now_mark : Z) : SessionLog.t :=
  SessionLog.mk (SessionLog.id old) (SessionLog.session old) (SessionLog.student old)
                present (Some now_mark)
                (if Req_dec_T confidence 0%R
                 then SessionLog.confidence_score old else Some confidence)
                (match frame with
                 | Some (GoodFrame _ (Some buffer)) =>
                     Some (mkEvidence sid now_file buffer)
                 | _ => SessionLog.recognized_image old
                 end).

(** How a call of [mark_attendance] relates the table of attendance
    records before ([rows]) and after ([rows']) to its result. *)
Inductive mark_effect (db : Database) (session : AttendanceSession.t) (sid : string)
                      (confidence : R) (frame : option Frame) (now_file now_mark : Z)
                      (rows' : list SessionLog.t) : option SessionLog.t -> Prop :=
| NothingWritten :
    rows' = session_logs db ->
    mark_effect db session sid confidence frame now_file now_mark rows' None
| CreatedThenFailed :
    frame = Some BadFrame ->
    filter (log_of (AttendanceSession.id session) sid) (session_logs db) = [] ->
    rows' = session_logs db ++ [absent_record db session sid] ->
    mark_effect db session sid confidence frame now_file now_mark rows' None
| MarkedExisting (old : SessionLog.t) (pre post : list SessionLog.t) :
    frame <> Some BadFrame ->
    log_key old = (AttendanceSession.id session, sid) ->
    session_logs db = pre ++ old :: post ->
    rows' = pre ++ marked old sid confidence frame now_file now_mark :: post ->
    mark_effect db session sid confidence frame now_file now_mark rows'
                (Some (marked old sid confidence frame now_file now_mark))
| CreatedAndMarked :
    frame <> Some BadFrame ->
    filter (log_of (AttendanceSession.id session) sid) (session_logs db) = [] ->
    rows' = session_logs db
            ++ [marked (absent_record db session sid) sid confidence frame
                       now_file now_mark] ->
    mark_effect db session sid confidence frame now_file now_mark rows'
                (Some (marked (absent_record db session sid) sid confidence frame
                              now_file now_mark)).

(** The record [create_session] creates for a student. *)
Definition is_new_absent (session : AttendanceSession.t) (r : SessionLog.t) : Prop :=
  SessionLog.session r = AttendanceSession.id session
  /\ SessionLog.status r = absent
  /\ SessionLog.recognized_at r = None
  /\ SessionLog.confidence_score r = None
  /\ SessionLog.recognized_image r = None.


(** The pairs (encoding, student id) of a known set. *)
Definition known_pairs (known : list encoding * list string)
  : list (encoding * string) :=
  combine (fst known) (snd known).

(** A record is present exactly when it carries a time of recognition. *)
Definition stamped (db : Database) : Prop :=
  forall r, In r (session_logs db) ->
            (SessionLog.status r = present <-> SessionLog.recognized_at r <> None).

(** What a run started on [db0] has done to the database when it is in
    state [st]. *)
Record run_effect (db0 : Database) (session : AttendanceSession.t)
                  (st : FaceRecognitionService.Run) : Prop := mkRunEffect {
  effect_students : students (FaceRecognitionService.run_db st) = students db0;
  effect_face_images : face_images (FaceRecognitionService.run_db st) = face_images db0;
  effect_stamped : stamped db0 -> stamped (FaceRecognitionService.run_db st);
  effect_present :
    forall sid, In sid (FaceRecognitionService.recognized_students st) ->
                exists log, In log (session_logs (FaceRecognitionService.run_db st))
                            /\ log_key log = (AttendanceSession.id session, sid)
                            /\ SessionLog.status log = present;
  effect_other_sessions :
    forall r, SessionLog.session r <> AttendanceSession.id session ->
              (In r (session_logs db0)
               <-> In r (session_logs (FaceRecognitionService.run_db st)));
  effect_seen_called :
    forall sid, In sid (FaceRecognitionService.recognized_students st) ->
                In sid (FaceRecognitionService.mark_calls st)
}.

(** The number of ticks on which the space bar is read. *)
Definition space_presses (ticks : list CaptureTick) : nat :=
  List.length (filter (fun t => (Z.land (capture_key t) 255 =? 32)%Z) ticks).

(* ================================================================== *)
(** * Properties of the matcher                                         *)
(* ================================================================== *)

Section Argmin.
Local Open Scope R_scope.

Lemma scanned_keep (p : list R) (b : nat) (x : R) :
  scanned p b -> ~ x < nth b p 0 -> scanned (p ++ [x]) b.
Proof.
  intros (Hb & Hmin & Hfirst) Hx.
  assert (Hnb : nth b (p ++ [x]) 0 = nth b p 0) by (apply app_nth1; exact Hb).
  unfold scanned. rewrite Hnb, length_app. cbn [List.length].
  repeat split.
  - lia.
  - intros j Hj.
    destruct (Nat.eq_dec j (List.length p)) as [-> | Hne].
    + rewrite app_nth2, Nat.sub_diag by lia. cbn. lra.
    + rewrite app_nth1 by lia. apply Hmin. lia.
  - intros j Hj. rewrite app_nth1 by lia. now apply Hfirst.
Qed.

Lemma scanned_replace (p : list R) (b : nat) (x : R) :
  scanned p b -> x < nth b p 0 -> scanned (p ++ [x]) (List.length p).
Proof.
  intros (Hb & Hmin & Hfirst) Hx.
  assert (Hnx : nth (List.length p) (p ++ [x]) 0 = x).
  { rewrite app_nth2, Nat.sub_diag by lia. reflexivity. }
  unfold scanned. rewrite Hnx, length_app. cbn [List.length].
  repeat split.
  - lia.
  - intros j Hj.
    destruct (Nat.eq_dec j (List.length p)) as [-> | Hne].
    + rewrite Hnx. lra.
    + rewrite app_nth1 by lia.
      assert (nth b p 0 <= nth j p 0) by (apply Hmin; lia). lra.
  - intros j Hj. rewrite app_nth1 by lia.
    assert (nth b p 0 <= nth j p 0) by (apply Hmin; lia). lra.
Qed.

Lemma argmin_from_scanned (rest : list R) :
  forall (p : list R) (b : nat),
    scanned p b ->
    scanned (p ++ rest) (Np.argmin_from b (nth b p 0) (List.length p) rest).
Proof.
  induction rest as [| x rest IH]; intros p b Hs.
  - cbn. now rewrite app_nil_r.
  - cbn [Np.argmin_from].
    replace (p ++ x :: rest) with ((p ++ [x]) ++ rest)
      by (rewrite <- app_assoc; reflexivity).
    destruct (Rlt_dec x (nth b p 0)) as [Hlt | Hge].
    + pose proof (scanned_replace p b x Hs Hlt) as Hs'.
      specialize (IH (p ++ [x]) (List.length p) Hs').
      rewrite app_nth2, Nat.sub_diag in IH by lia. cbn [nth] in IH.
      rewrite length_app in IH. cbn [List.length] in IH.
      now rewrite Nat.add_1_r in IH.
    + pose proof (scanned_keep p b x Hs Hge) as Hs'.
      specialize (IH (p ++ [x]) b Hs').
      destruct Hs as (Hb & _).
      rewrite app_nth1 in IH by exact Hb.
      rewrite length_app in IH. cbn [List.length] in IH.
      now rewrite Nat.add_1_r in IH.
Qed.

(** [np.argmin] of a non-empty array is in range, attains the minimum and
    is the first index that does. *)
Lemma argmin_scanned (l : list R) : l <> [] -> scanned l (Np.argmin l).
Proof.
  destruct l as [| x l]; [congruence | intros _].
  change (x :: l) with ([x] ++ l) at 1.
  change (Np.argmin (x :: l)) with (Np.argmin_from 0 (nth 0 [x] 0) (List.length [x]) l).
  apply argmin_from_scanned.
  unfold scanned. cbn [List.length]. repeat split.
  - lia.
  - intros j Hj. replace j with 0%nat by lia. cbn. lra.
  - intros j Hj. lia.
Qed.

Lemma face_distance_length (known : list encoding) (q : encoding) :
  List.length (Np.face_distance known q) = List.length known.
Proof. apply length_map. Qed.

Lemma face_distance_nth (known : list encoding) (q : encoding) (j : nat) :
  (j < List.length known)%nat ->
  nth j (Np.face_distance known q) 0 = Np.norm_diff (nth j known []) q.
Proof.
  intros Hj. unfold Np.face_distance.
  rewrite (nth_indep _ 0 (Np.norm_diff [] q)) by (now rewrite length_map).
  apply (map_nth (fun k => Np.norm_diff k q)).
Qed.
End Argmin.

Section Matcher.
Local Open Scope R_scope.
Import FaceRecognitionService.

Lemma match_face_empty (self : t) (q : encoding) (ids : list string) :
  match_face self q [] ids = None.
Proof. reflexivity. Qed.

(** On a non-empty known set [match_face] looks at the distance at
    [np.argmin] only. *)
Lemma match_face_unfold (self : t) (q : encoding) (known : list encoding)
                        (ids : list string) :
  known <> [] ->
  match_face self q known ids =
    let d := nth (Np.argmin (Np.face_distance known q)) (Np.face_distance known q) 0 in
    if Rle_dec d (tolerance self) then
      match nth_error ids (Np.argmin (Np.face_distance known q)) with
      | Some sid => Some (sid, 1 - d)
      | None => None
      end
    else None.
Proof.
  intros Hne. unfold match_face.
  destruct (Nat.ltb_spec 0 (List.length (Np.face_distance known q))) as [_ | Hlen].
  - reflexivity.
  - rewrite face_distance_length in Hlen.
    destruct known; [congruence | cbn in Hlen; lia].
Qed.

Lemma norm_diff_nonneg (a b : encoding) : 0 <= Np.norm_diff a b.
Proof. apply sqrt_pos. Qed.

Lemma nth_error_in_range {A : Type} (l : list A) (i : nat) :
  (i < List.length l)%nat -> exists a, nth_error l i = Some a.
Proof.
  intros Hi. destruct (nth_error l i) as [a |] eqn:E.
  - now exists a.
  - apply nth_error_None in E. lia.
Qed.
End Matcher.

(** C1.  The comparison step of [recognize_face_from_frame], for the first
    face [q] of a frame, a list [known] of encodings and a parallel list
    [ids]: the distances are the Euclidean distances of [q] to every known
    encoding; on an empty known set the answer is no-match; otherwise the
    index [i] that is chosen attains the minimal distance and is the first
    to attain it, and the answer is [(ids[i], 1 - distance[i])] when that
    distance is at most the tolerance and no-match when it is above. *)
Theorem recognize_nearest_first_wins
    (self : FaceRecognitionService.t) (q : encoding) (more : list encoding)
    (jpeg : option bytes) (known : list encoding) (ids : list string) :
  List.length known = List.length ids ->
  let d := Np.face_distance known q in
  let result :=
    FaceRecognitionService.recognize_face_from_frame
      self (GoodFrame (q :: more) jpeg) known ids in
  (known = [] -> result = None)
  /\ (known <> [] ->
      exists (i : nat) (sid : string),
        (i < List.length known)%nat
        /\ nth_error ids i = Some sid
        /\ (forall j, (j < List.length known)%nat ->
                      nth j d 0%R = sqrt (Np.sum_sq_diff (nth j known []) q))
        /\ (forall j, (j < List.length known)%nat -> (nth i d 0 <= nth j d 0)%R)
        /\ (forall j, (j < i)%nat -> (nth i d 0 < nth j d 0)%R)
        /\ ((nth i d 0 <= FaceRecognitionService.tolerance self)%R ->
            result = Some (sid, (1 - nth i d 0)%R))
        /\ ((FaceRecognitionService.tolerance self < nth i d 0)%R ->
            result = None)).
Proof.
  intros Hlen d result. split.
  - intros ->. reflexivity.
  - intros Hne.
    assert (Hd : d <> []).
    { intros E. apply (f_equal (@List.length R)) in E.
      unfold d in E. rewrite face_distance_length in E.
      destruct known; [congruence | discriminate]. }
    destruct (argmin_scanned d Hd) as (Hi & Hmin & Hfirst).
    unfold d in Hi, Hmin. rewrite face_distance_length in Hi, Hmin. fold d in Hmin.
    destruct (nth_error_in_range ids (Np.argmin d)) as [sid Hsid]; [unfold d; lia |].
    exists (Np.argmin d), sid.
    assert (Hres : result =
                   if Rle_dec (nth (Np.argmin d) d 0%R) (FaceRecognitionService.tolerance self)
                   then Some (sid, (1 - nth (Np.argmin d) d 0)%R) else None).
    { unfold result. cbn [FaceRecognitionService.recognize_face_from_frame].
      rewrite match_face_unfold by exact Hne. cbv zeta. fold d. now rewrite Hsid. }
    repeat split; try assumption.
    + intros j Hj. unfold d. now rewrite face_distance_nth.
    + intros Hle. rewrite Hres.
      destruct (Rle_dec _ _); [reflexivity | contradiction].
    + intros Hgt. rewrite Hres.
      destruct (Rle_dec _ _) as [Hle |]; [| reflexivity].
      exfalso. exact (Rlt_not_le _ _ Hgt Hle).
Qed.

Lemma sqrt_of_square_sum (x : R) : (0 <= x)%R -> sqrt ((0 - x) * (0 - x) + 0) = x.
Proof.
  intros Hx. replace ((0 - x) * (0 - x) + 0)%R with (x * x)%R by lra.
  now apply sqrt_square.
Qed.

Lemma recognize_nearest_first_wins_witness :
  List.length [[0; 0]; [10; 10]]%R = List.length ["A"; "B"]%string
  /\ FaceRecognitionService.recognize_face_from_frame
       FaceRecognitionService.init (GoodFrame [[0; 0]%R] None)
       [[0; 0]; [10; 10]]%R ["A"; "B"]%string
     = Some ("A"%string, (1 - 0)%R).
Proof.
  split; [reflexivity |].
  destruct (recognize_nearest_first_wins
              FaceRecognitionService.init [0; 0]%R [] None
              [[0; 0]; [10; 10]]%R ["A"; "B"]%string eq_refl) as [_ H].
  destruct H as (i & sid & Hi & Hsid & Heu & Hmin & Hfirst & Hle & _);
    [discriminate |].
  assert (H0 : nth 0 (Np.face_distance [[0; 0]; [10; 10]]%R [0; 0]%R) 0%R = 0%R).
  { rewrite (Heu 0%nat) by (cbn; lia). cbn.
    replace ((0 - 0) * (0 - 0) + ((0 - 0) * (0 - 0) + 0))%R with 0%R by lra.
    apply sqrt_0. }
  destruct i as [| i].
  - cbn in Hsid. injection Hsid as <-.
    rewrite H0 in Hle. apply Hle. cbn. lra.
  - exfalso.
    assert (Hlt := Hfirst 0%nat (Nat.lt_0_succ i)).
    rewrite H0 in Hlt.
    assert (Hi' : (S i < 2)%nat) by exact Hi.
    rewrite (Heu (S i) Hi') in Hlt.
    apply (Rlt_not_le _ _ Hlt). apply sqrt_pos.
Defined.

(** C9.  Whenever [recognize_face_from_frame] reports a match, the
    confidence is exactly one minus the distance at [np.argmin], which is
    the minimal distance and is at most the tolerance; nothing clamps it:
    with tolerance 2, query (2) and known set {(0)} the minimal distance is
    2 > 1 and the confidence returned is negative. *)
Theorem confidence_unclamped :
  (forall (self : FaceRecognitionService.t) (frame : Frame)
          (known : list encoding) (ids : list string) (sid : string) (c : R),
      FaceRecognitionService.recognize_face_from_frame self frame known ids
        = Some (sid, c) ->
      exists (q : encoding) (more : list encoding) (jpeg : option bytes),
        frame = GoodFrame (q :: more) jpeg
        /\ let d := Np.face_distance known q in
           c = (1 - nth (Np.argmin d) d 0)%R
           /\ (forall j, (j < List.length known)%nat ->
                         (nth (Np.argmin d) d 0 <= nth j d 0)%R)
           /\ (nth (Np.argmin d) d 0 <= FaceRecognitionService.tolerance self)%R)
  /\ (exists (self : FaceRecognitionService.t) (q : encoding)
             (known : list encoding) (ids : list string) (sid : string) (c : R),
         FaceRecognitionService.recognize_face_from_frame
           self (GoodFrame [q] None) known ids = Some (sid, c)
         /\ (1 < nth (Np.argmin (Np.face_distance known q))
                     (Np.face_distance known q) 0)%R
         /\ (nth (Np.argmin (Np.face_distance known q))
                 (Np.face_distance known q) 0
             <= FaceRecognitionService.tolerance self)%R
         /\ (c < 0)%R).
Proof.
  split.
  - intros self frame known ids sid c Hrec.
    destruct frame as [| faces jpeg]; [discriminate |].
    destruct faces as [| q more]; [discriminate |].
    exists q, more, jpeg. split; [reflexivity |].
    cbn [FaceRecognitionService.recognize_face_from_frame] in Hrec.
    destruct known as [| k known']; [discriminate |].
    rewrite match_face_unfold in Hrec by discriminate.
    cbv zeta in Hrec |- *.
    set (d := Np.face_distance (k :: known') q) in *.
    destruct (Rle_dec (nth (Np.argmin d) d 0%R) (FaceRecognitionService.tolerance self))
      as [Hle |]; [| discriminate].
    destruct (nth_error ids (Np.argmin d)); [| discriminate].
    injection Hrec as _ <-.
    assert (Hd : d <> []) by (unfold d; discriminate).
    destruct (argmin_scanned d Hd) as (_ & Hmin & _).
    repeat split; try assumption.
    intros j Hj. apply Hmin. unfold d. now rewrite face_distance_length.
  - exists (FaceRecognitionService.mk 2%R hog), [2%R], [[0%R]], ["S1"%string],
           "S1"%string, (1 - 2)%R.
    assert (Hd : Np.face_distance [[0%R]] [2%R] = [2%R]).
    { cbn. unfold Np.norm_diff. cbn. rewrite sqrt_of_square_sum by lra. reflexivity. }
    rewrite Hd. cbn [Np.argmin Np.argmin_from nth].
    repeat split; try (cbn; lra).
    cbn [FaceRecognitionService.recognize_face_from_frame].
    rewrite match_face_unfold by discriminate. cbv zeta.
    rewrite Hd. cbn [Np.argmin Np.argmin_from nth nth_error FaceRecognitionService.tolerance].
    destruct (Rle_dec 2 2); [reflexivity | lra].
Qed.

Lemma confidence_unclamped_witness :
  FaceRecognitionService.recognize_face_from_frame
    (FaceRecognitionService.mk 2%R hog) (GoodFrame [[2%R]] None) [[0%R]] ["S1"%string]
    = Some ("S1"%string, (1 - sqrt ((0 - 2) * (0 - 2) + 0))%R)
  /\ (1 - sqrt ((0 - 2) * (0 - 2) + 0) =
      1 - nth (Np.argmin (Np.face_distance [[0%R]] [2%R]))
              (Np.face_distance [[0%R]] [2%R]) 0)%R.
Proof.
  assert (Hrec : FaceRecognitionService.recognize_face_from_frame
                   (FaceRecognitionService.mk 2%R hog) (GoodFrame [[2%R]] None)
                   [[0%R]] ["S1"%string]
                 = Some ("S1"%string, (1 - sqrt ((0 - 2) * (0 - 2) + 0))%R)).
  { cbn [FaceRecognitionService.recognize_face_from_frame].
    rewrite match_face_unfold by discriminate. cbv zeta.
    cbn [Np.face_distance map Np.norm_diff Np.sum_sq_diff Np.argmin Np.argmin_from
         nth nth_error FaceRecognitionService.tolerance].
    destruct (Rle_dec _ 2) as [| Hn]; [reflexivity |].
    exfalso. apply Hn. unfold Np.norm_diff. cbn [Np.sum_sq_diff].
    rewrite sqrt_of_square_sum; lra. }
  split; [exact Hrec |].
  destruct (proj1 confidence_unclamped _ _ _ _ _ _ Hrec)
    as (q & more & jpeg & Hframe & Hc & _).
  injection Hframe as <- _ _. exact Hc.
Defined.

(* ================================================================== *)
(** * Properties of the known set                                       *)
(* ================================================================== *)

Section KnownSet.
Import FaceRecognitionService.

Lemma load_one_cases (acc : list encoding * list string)
                     (row : FaceImage.t * Student.t) :
  load_one acc row = acc
  \/ exists e, load_one acc row
               = (fst acc ++ [e], snd acc ++ [Student.student_id (snd row)]).
Proof.
  destruct acc as [es ids], row as [fi s]. unfold load_one.
  destruct (truthy_blob (FaceImage.face_encoding fi)) as [blob |]; [| now left].
  destruct (pickle_loads blob) as [e |]; [| now left].
  right. now exists e.
Qed.

Lemma load_one_parallel (acc : list encoding * list string)
                        (row : FaceImage.t * Student.t) :
  List.length (fst acc) = List.length (snd acc) ->
  List.length (fst (load_one acc row)) = List.length (snd (load_one acc row)).
Proof.
  intros H. destruct (load_one_cases acc row) as [-> | [e ->]]; [exact H |].
  cbn [fst snd]. rewrite !length_app. cbn. lia.
Qed.

Lemma load_fold_parallel (rows : list (FaceImage.t * Student.t)) :
  forall acc : list encoding * list string,
    List.length (fst acc) = List.length (snd acc) ->
    List.length (fst (fold_left load_one rows acc))
    = List.length (snd (fold_left load_one rows acc)).
Proof.
  induction rows as [| row rows IH]; intros acc H; cbn [fold_left].
  - exact H.
  - apply IH. now apply load_one_parallel.
Qed.

Lemma load_known_faces_lengths (db : Database) (course : option string) :
  List.length (fst (load_known_faces db course))
  = List.length (snd (load_known_faces db course)).
Proof. unfold load_known_faces. now apply load_fold_parallel. Qed.
End KnownSet.

(** C10.  [load_known_faces] returns two lists of one length: a row whose
    blob unpickles appends to both lists, a row whose encoding is missing,
    empty or does not unpickle appends to neither; hence the index that
    [np.argmin] gives on the distances to the known encodings always
    addresses an element of the known student ids. *)
Theorem load_known_faces_parallel (db : Database) (course : option string) :
  let known := FaceRecognitionService.load_known_faces db course in
  List.length (fst known) = List.length (snd known)
  /\ (forall acc fi s e,
         FaceImage.face_encoding fi = Some (PickledBlob e) ->
         FaceRecognitionService.load_one acc (fi, s)
         = (fst acc ++ [e], snd acc ++ [Student.student_id s]))
  /\ (forall acc fi s,
         FaceImage.face_encoding fi = None
         \/ FaceImage.face_encoding fi = Some EmptyBlob
         \/ FaceImage.face_encoding fi = Some CorruptBlob ->
         FaceRecognitionService.load_one acc (fi, s) = acc)
  /\ (forall face : encoding,
         fst known <> [] ->
         exists sid,
           nth_error (snd known) (Np.argmin (Np.face_distance (fst known) face))
           = Some sid).
Proof.
  intros known. repeat split.
  - apply load_known_faces_lengths.
  - intros [es ids] fi s e H. unfold FaceRecognitionService.load_one.
    rewrite H. reflexivity.
  - intros [es ids] fi s H. unfold FaceRecognitionService.load_one.
    destruct H as [-> | [-> | ->]]; reflexivity.
  - intros face Hne. apply nth_error_in_range. unfold known in *.
    rewrite <- load_known_faces_lengths.
    rewrite <- (face_distance_length _ face).
    apply argmin_scanned.
    intros E. apply (f_equal (@List.length R)) in E.
    rewrite face_distance_length in E.
    destruct (fst _); [congruence | discriminate].
Qed.

Lemma load_known_faces_parallel_witness :
  fst (FaceRecognitionService.load_known_faces Sample.db (Some "COET"%string)) <> []
  /\ exists sid,
       nth_error (snd (FaceRecognitionService.load_known_faces Sample.db (Some "COET"%string)))
                 (Np.argmin (Np.face_distance
                               (fst (FaceRecognitionService.load_known_faces
                                       Sample.db (Some "COET"%string)))
                               [0; 0]%R))
       = Some sid.
Proof.
  assert (Hne : fst (FaceRecognitionService.load_known_faces Sample.db (Some "COET"%string))
                <> []) by (cbn; discriminate).
  split; [exact Hne |].
  exact (proj2 (proj2 (proj2 (load_known_faces_parallel Sample.db (Some "COET"%string))))
               [0; 0]%R Hne).
Defined.

Section KnownSetScope.
Import FaceRecognitionService.

Lemma load_fold_ids (rows : list (FaceImage.t * Student.t)) :
  forall (acc : list encoding * list string) (sid : string),
    In sid (snd (fold_left load_one rows acc)) ->
    In sid (snd acc)
    \/ exists row, In row rows /\ Student.student_id (snd row) = sid.
Proof.
  induction rows as [| row rows IH]; intros acc sid H; cbn [fold_left] in H.
  - now left.
  - destruct (IH _ _ H) as [Hacc | (row' & Hin & Hid)].
    + destruct (load_one_cases acc row) as [E | [e E]]; rewrite E in Hacc.
      * now left.
      * cbn [snd] in Hacc. apply in_app_or in Hacc.
        destruct Hacc as [Hacc | [<- | []]]; [now left |].
        right. exists row. split; [now left | reflexivity].
    + right. exists row'. split; [now right | exact Hid].
Qed.

Lemma select_related_student_in (db : Database) (rows : list FaceImage.t)
                                (row : FaceImage.t * Student.t) :
  In row (select_related_student db rows) ->
  In (fst row) rows /\ In (snd row) (students db)
  /\ Student.student_id (snd row) = FaceImage.student (fst row).
Proof.
  unfold select_related_student. rewrite in_flat_map.
  intros (fi & Hfi & Hrow).
  destruct (find (pk_is (FaceImage.student fi)) (students db)) as [s |] eqn:E;
    [| contradiction].
  destruct Hrow as [<- | []]. cbn [fst snd].
  apply find_some in E. destruct E as [Hs Hpk].
  unfold pk_is in Hpk. apply String.eqb_eq in Hpk. auto.
Qed.

(** Every identity of a known set is an active student of the table. *)
Lemma load_known_faces_students (db : Database) (course : option string)
                                (sid : string) :
  In sid (snd (load_known_faces db course)) ->
  exists s, In s (students db) /\ Student.student_id s = sid
            /\ Student.is_active s = true
            /\ (forall c, course = Some c -> Student.course s = c).
Proof.
  unfold load_known_faces. intros H.
  apply load_fold_ids in H. destruct H as [[] | (row & Hin & Hid)].
  exists (snd row).
  assert (Hq : In row (filter (fun row : FaceImage.t * Student.t =>
                                 Angle_eqb (FaceImage.angle (fst row)) front
                                 && FaceImage.is_active (fst row)
                                 && Student.is_active (snd row))
                              (select_related_student db (face_images db)))
               /\ forall c, course = Some c -> Student.course (snd row) = c).
  { destruct course as [c |].
    - apply filter_In in Hin. destruct Hin as [Hin Hc]. split; [exact Hin |].
      intros c' [= <-]. now apply String.eqb_eq.
    - split; [exact Hin | discriminate]. }
  destruct Hq as [Hq Hc]. apply filter_In in Hq. destruct Hq as [Hsel Hf].
  apply select_related_student_in in Hsel. destruct Hsel as (_ & Hs & _).
  apply andb_prop in Hf. destruct Hf as [_ Hact]. auto.
Qed.
End KnownSetScope.

(** C2.  A run of [process_video_stream] loads its known set once, before
    the loop, with [load_known_faces()] and no course: for a session of
    course COET over a table that also holds an enrolled student of course
    BIT, the known set of the run contains the BIT student, whereas the
    single-frame path of [recognize_face_api] loads the COET student only. *)
Theorem stream_known_set_not_scoped :
  snd (FaceRecognitionService.stream_known_faces Sample.db Sample.lecture)
    = ["S1"; "S2"]%string
  /\ In Sample.bob (students Sample.db)
  /\ Student.student_id Sample.bob = "S2"%string
  /\ Student.course Sample.bob <> AttendanceSession.course Sample.lecture
  /\ snd (Views.frame_known_faces Sample.db Sample.lecture) = ["S1"%string].
Proof.
  repeat split.
  - cbn. auto.
  - discriminate.
Qed.

(* ================================================================== *)
(** * Properties of enrollment                                          *)
(* ================================================================== *)

Section Enrollment.
Import FaceRecognitionService.

Lemma le_fold_max (l : list nat) (n : nat) :
  In n l -> n <= fold_right Nat.max 0 l.
Proof.
  induction l as [| m l IH]; cbn; [contradiction |].
  intros [-> | H]; [lia |]. specialize (IH H). lia.
Qed.

Lemma next_id_fresh {A : Type} (id : A -> nat) (rows : list A) (r : A) :
  In r rows -> id r < next_id (map id rows).
Proof.
  intros H. unfold next_id.
  pose proof (le_fold_max (map id rows) (id r) (in_map id rows r H)). lia.
Qed.

Lemma save_face_fresh (rows : list FaceImage.t) (old new : FaceImage.t) :
  FaceImage.id old = next_id (map FaceImage.id rows) ->
  FaceImage.id new = FaceImage.id old ->
  save_face new (rows ++ [old]) = rows ++ [new].
Proof.
  intros Hold Hnew. unfold save_face. rewrite map_app. cbn [map].
  rewrite Hnew, Nat.eqb_refl. f_equal.
  rewrite <- (map_id rows) at 2. apply map_ext_in.
  intros r Hr. pose proof (next_id_fresh FaceImage.id rows r Hr).
  destruct (Nat.eqb_spec (FaceImage.id r) (FaceImage.id old)); [lia | reflexivity].
Qed.

Lemma delete_face_fresh (rows : list FaceImage.t) (old : FaceImage.t) :
  FaceImage.id old = next_id (map FaceImage.id rows) ->
  delete_face old (rows ++ [old]) = rows.
Proof.
  intros Hold. unfold delete_face. rewrite filter_app. cbn [filter].
  rewrite Nat.eqb_refl. cbn. rewrite app_nil_r.
  apply forallb_filter_id. apply forallb_forall.
  intros r Hr. pose proof (next_id_fresh FaceImage.id rows r Hr).
  destruct (Nat.eqb_spec (FaceImage.id r) (FaceImage.id old)); [lia | reflexivity].
Qed.

(** What one angle does to the table: either the picture shows no face
    and the table is as before, or one active row is appended. *)
Lemma save_angle_rows (student : Student.t) (db : Database) (res : Results)
                      (a : Angle) (img : Image) :
  let out := save_angle student (db, res) (a, img) in
  (face_images (fst out) = face_images db /\ success (snd out) = false)
  \/ (exists row,
         face_images (fst out) = face_images db ++ [row]
         /\ FaceImage.student row = Student.student_id student
         /\ FaceImage.angle row = a
         /\ FaceImage.is_active row = true
         /\ success (snd out) = success res).
Proof.
  cbv zeta. unfold save_angle.
  destruct (encode_face img) as [e |].
  - right. eexists. cbn [fst snd face_images with_face_images success].
    rewrite save_face_fresh by reflexivity.
    split; [reflexivity |]. cbn. auto.
  - left. cbn [fst snd face_images with_face_images success].
    rewrite delete_face_fresh by reflexivity. auto.
Qed.

Lemma filter_length_app {A : Type} (p : A -> bool) (l l' : list A) :
  List.length (filter p (l ++ l')) = List.length (filter p l) + List.length (filter p l').
Proof. now rewrite filter_app, length_app. Qed.

(** The effect of the three iterations on the table. *)
Lemma save_student_face_images_rows (db : Database) (student : Student.t)
                                    (f l r : Image) :
  let out := save_student_face_images db student f l r in
  exists new,
    face_images (fst out) = face_images db ++ new
    /\ (success (snd out) = true ->
        exists rf rl rr,
          new = [rf; rl; rr]
          /\ FaceImage.student rf = Student.student_id student
          /\ FaceImage.student rl = Student.student_id student
          /\ FaceImage.student rr = Student.student_id student
          /\ FaceImage.angle rf = front /\ FaceImage.angle rl = left
          /\ FaceImage.angle rr = right
          /\ FaceImage.is_active rf = true /\ FaceImage.is_active rl = true
          /\ FaceImage.is_active rr = true).
Proof.
  cbv zeta. unfold save_student_face_images. cbn [fold_left].
  set (s0 := (db, mkResults true [] [])).
  pose proof (save_angle_rows student (fst s0) (snd s0) front f) as H1.
  rewrite <- surjective_pairing in H1.
  set (s1 := save_angle student s0 (front, f)) in *.
  pose proof (save_angle_rows student (fst s1) (snd s1) left l) as H2.
  rewrite <- surjective_pairing in H2.
  set (s2 := save_angle student s1 (left, l)) in *.
  pose proof (save_angle_rows student (fst s2) (snd s2) right r) as H3.
  rewrite <- surjective_pairing in H3.
  set (s3 := save_angle student s2 (right, r)) in *.
  cbv zeta in H1, H2, H3. cbn [fst snd s0] in H1.
  destruct H3 as [[E3 S3] | (rr & E3 & A3 & B3 & C3 & S3)];
    destruct H2 as [[E2 S2] | (rl & E2 & A2 & B2 & C2 & S2)];
    destruct H1 as [[E1 S1] | (rf & E1 & A1 & B1 & C1 & S1)];
    rewrite E3, E2, E1, <- ?app_assoc;
    try (eexists; split; [try reflexivity; symmetry; apply app_nil_r |]; intros Hs;
         exfalso; congruence).
  exists [rf; rl; rr]. split; [reflexivity |]. intros _.
  exists rf, rl, rr. repeat split; assumption.
Qed.
End Enrollment.

Lemma enrollment_step (db : Database) (student : Student.t) (f l r : Image) :
  let out := FaceRecognitionService.save_student_face_images db student f l r in
  (forall row, In row (face_images db) -> In row (face_images (fst out)))
  /\ (forall sid a, stored_records db sid a <= stored_records (fst out) sid a)
  /\ (forall sid a, active_records db sid a <= active_records (fst out) sid a)
  /\ (FaceRecognitionService.success (snd out) = true ->
      forall a,
        stored_records (fst out) (Student.student_id student) a
          = S (stored_records db (Student.student_id student) a)
        /\ active_records (fst out) (Student.student_id student) a
          = S (active_records db (Student.student_id student) a)).
Proof.
  intros out.
  destruct (save_student_face_images_rows db student f l r) as (new & Hrows & Hok).
  fold out in Hrows, Hok.
  unfold stored_records, active_records. rewrite Hrows.
  split; [| split; [| split]].
  - intros row Hin. apply in_or_app. now left.
  - intros sid a. rewrite filter_length_app. lia.
  - intros sid a. rewrite filter_length_app. lia.
  - intros Hs a.
    destruct (Hok Hs) as (rf & rl & rr & -> & Sf & Sl & Sr & Af & Al & Ar & If & Il & Ir).
    rewrite !filter_length_app. cbn [filter]. unfold enrolled_as.
    rewrite Sf, Sl, Sr, Af, Al, Ar, If, Il, Ir, String.eqb_refl.
    destruct a; cbn; lia.
Qed.

Lemma enroll_all_keeps (history : list Enrollment) :
  forall db : Database,
    (forall row, In row (face_images db) -> In row (face_images (enroll_all db history)))
    /\ (forall sid a, stored_records db sid a <= stored_records (enroll_all db history) sid a)
    /\ (forall sid a, active_records db sid a <= active_records (enroll_all db history) sid a).
Proof.
  induction history as [| e rest IH]; intros db; cbn [enroll_all].
  - auto.
  - destruct (enrollment_step db (enrolled_student e) (front_image e) (left_image e)
                              (right_image e)) as (Hin & Hst & Hact & _).
    destruct (IH (fst (FaceRecognitionService.save_student_face_images
                         db (enrolled_student e) (front_image e) (left_image e)
                         (right_image e)))) as (Hin' & Hst' & Hact').
    split; [| split].
    + intros row Hr. apply Hin', Hin, Hr.
    + intros sid a. eapply Nat.le_trans; [apply Hst | apply Hst'].
    + intros sid a. eapply Nat.le_trans; [apply Hact | apply Hact'].
Qed.

(** C3, as the code has it.  [save_student_face_images] never deletes or
    deactivates a row that was in the table: after any sequence [history]
    of enrollments and one more enrollment, every row of the initial table
    is still there unchanged, and the counts of stored and of active
    records of any (identity, angle) have not decreased at any point; an
    enrollment that reports success adds exactly one stored, active record
    for each of the three angles of the student. *)
Theorem enrollment_appends_active_records
    (db : Database) (history : list Enrollment)
    (student : Student.t) (f l r : Image) :
  let before := enroll_all db history in
  let out := FaceRecognitionService.save_student_face_images before student f l r in
  (forall row, In row (face_images db) -> In row (face_images (fst out)))
  /\ (forall sid a, stored_records db sid a <= stored_records before sid a
                    /\ stored_records before sid a <= stored_records (fst out) sid a)
  /\ (forall sid a, active_records db sid a <= active_records before sid a
                    /\ active_records before sid a <= active_records (fst out) sid a)
  /\ (FaceRecognitionService.success (snd out) = true ->
      forall a,
        stored_records (fst out) (Student.student_id student) a
          = S (stored_records before (Student.student_id student) a)
        /\ active_records (fst out) (Student.student_id student) a
          = S (active_records before (Student.student_id student) a)).
Proof.
  intros before out.
  destruct (enroll_all_keeps history db) as (Hin & Hst & Hact).
  destruct (enrollment_step before student f l r) as (Hin' & Hst' & Hact' & Hok).
  fold before in Hin, Hst, Hact. fold out in Hin', Hst', Hact', Hok.
  split; [| split; [| split]].
  - intros row Hr. apply Hin', Hin, Hr.
  - intros sid a. split; [apply Hst | apply Hst'].
  - intros sid a. split; [apply Hact | apply Hact'].
  - exact Hok.
Qed.

Lemma enrollment_appends_active_records_witness :
  let again := mkEnrollment Sample.alice (Decoded [[0; 0]%R]) (Decoded [[1; 0]%R])
                            (Decoded [[0; 1]%R]) in
  let before := enroll_all Sample.db [again] in
  let out := FaceRecognitionService.save_student_face_images
               before Sample.alice
               (Decoded [[0; 0]%R]) (Decoded [[1; 0]%R]) (Decoded [[0; 1]%R]) in
  FaceRecognitionService.success (snd out) = true
  /\ active_records (fst out) "S1"%string front
     = S (active_records before "S1"%string front).
Proof.
  cbv zeta. split; [reflexivity |].
  exact (proj2 (proj2 (proj2 (proj2
           (enrollment_appends_active_records
              Sample.db
              [mkEnrollment Sample.alice (Decoded [[0; 0]%R]) (Decoded [[1; 0]%R])
                            (Decoded [[0; 1]%R])]
              Sample.alice
              (Decoded [[0; 0]%R]) (Decoded [[1; 0]%R]) (Decoded [[0; 1]%R]))))
           eq_refl front)).
Defined.

(** C3, as stated, fails: enrolling a student twice with pictures that show
    a face succeeds both times and leaves two active front records. *)
Lemma reenrollment_leaves_two_active_records :
  let pic := Decoded [[0; 0]%R] in
  let start := mkDatabase [Sample.alice] [] [] in
  let once := FaceRecognitionService.save_student_face_images
                start Sample.alice pic pic pic in
  let twice := FaceRecognitionService.save_student_face_images
                 (fst once) Sample.alice pic pic pic in
  FaceRecognitionService.success (snd once) = true
  /\ FaceRecognitionService.success (snd twice) = true
  /\ active_records (fst once) "S1"%string front = 1
  /\ active_records (fst twice) "S1"%string front = 2
  /\ ~ active_records (fst twice) "S1"%string front <= 1.
Proof.
  cbv zeta. repeat split. cbn. lia.
Qed.

(* ================================================================== *)
(** * Properties of the statistics                                      *)
(* ================================================================== *)

Lemma count_if_filter {A : Type} (p : A -> bool) (l : list A) :
  Z.of_nat (List.length (filter p l)) = count_if p l.
Proof.
  induction l as [| x l IH]; [reflexivity |].
  cbn [filter count_if]. destruct (p x); cbn [List.length]; lia.
Qed.

Lemma count_if_nonneg {A : Type} (p : A -> bool) (l : list A) :
  (0 <= count_if p l)%Z.
Proof. rewrite <- count_if_filter. lia. Qed.

(** C6.  [get_attendance_statistics]: the total is the number of active
    students of the session's course and does not depend on the table of
    attendance records; the present count is the number of records of the
    session in state present; the absent count is the difference; the
    percentage is 0 for a total of 0 and present / total * 100 otherwise. *)
Theorem statistics_of_session (db : Database) (session : AttendanceSession.t) :
  let stats := get_attendance_statistics db session in
  Statistics.total_students stats
    = count_if (fun s => Student.is_active s
                         && String.eqb (Student.course s)
                                       (AttendanceSession.course session))
               (students db)
  /\ (forall logs,
         Statistics.total_students
           (get_attendance_statistics (with_session_logs db logs) session)
         = Statistics.total_students stats)
  /\ Statistics.present_count stats
     = count_if (fun r => (SessionLog.session r =? AttendanceSession.id session)
                          && match SessionLog.status r with
                             | present => true
                             | absent => false
                             end)
                (session_logs db)
  /\ Statistics.absent_count stats
     = (Statistics.total_students stats - Statistics.present_count stats)%Z
  /\ (Statistics.total_students stats = 0%Z ->
      Statistics.attendance_percentage stats = 0%R)
  /\ (Statistics.total_students stats <> 0%Z ->
      Statistics.attendance_percentage stats
      = (IZR (Statistics.present_count stats)
         / IZR (Statistics.total_students stats) * 100)%R).
Proof.
  cbv zeta. unfold get_attendance_statistics.
  cbn [Statistics.total_students Statistics.present_count Statistics.absent_count
       Statistics.attendance_percentage students session_logs with_session_logs].
  rewrite !count_if_filter.
  repeat split.
  - intros H. rewrite H. reflexivity.
  - intros H.
    pose proof (count_if_nonneg (active_in_course (AttendanceSession.course session))
                                (students db)) as Hnn.
    destruct (Z.ltb_spec 0
                (count_if (active_in_course (AttendanceSession.course session))
                          (students db))); [reflexivity | lia].
Qed.

Lemma statistics_of_session_witness :
  (Statistics.total_students
     (get_attendance_statistics Sample.class_db Sample.lecture) <> 0%Z
   /\ get_attendance_statistics Sample.class_db Sample.lecture
      = Statistics.mk 10 3 7 (IZR 3 / IZR 10 * 100)%R
   /\ (IZR 3 / IZR 10 * 100 = 30)%R)
  /\ (Statistics.total_students
        (get_attendance_statistics Sample.class_db Sample.empty_lecture) = 0%Z
      /\ Statistics.attendance_percentage
           (get_attendance_statistics Sample.class_db Sample.empty_lecture) = 0%R).
Proof.
  split.
  - assert (Hne : Statistics.total_students
                    (get_attendance_statistics Sample.class_db Sample.lecture) <> 0%Z)
      by (cbn; discriminate).
    split; [exact Hne |]. split; [| lra].
    destruct (statistics_of_session Sample.class_db Sample.lecture)
      as (_ & _ & _ & _ & _ & Hpct).
    specialize (Hpct Hne).
    change (get_attendance_statistics Sample.class_db Sample.lecture)
      with (Statistics.mk 10 3 7
              (Statistics.attendance_percentage
                 (get_attendance_statistics Sample.class_db Sample.lecture))).
    now rewrite Hpct.
  - split; [reflexivity |].
    apply (proj1 (proj2 (proj2 (proj2 (proj2
             (statistics_of_session Sample.class_db Sample.empty_lecture)))))).
    reflexivity.
Defined.

(* ================================================================== *)
(** * Properties of the attendance records                              *)
(* ================================================================== *)

Section Tables.

(** A filter on a unique key selects at most one row. *)
Lemma filter_unique_key {A K : Type} (key : A -> K) (p : A -> bool) (k : K)
                        (rows : list A) :
  (forall r, p r = true <-> key r = k) ->
  NoDup (map key rows) ->
  filter p rows = [] \/ exists r, filter p rows = [r].
Proof.
  intros Hp. induction rows as [| x rows IH]; intros Hnd; [now left |].
  cbn [map] in Hnd. apply NoDup_cons_iff in Hnd. destruct Hnd as [Hx Hnd].
  cbn [filter]. destruct (p x) eqn:Epx.
  - right. exists x. f_equal.
    destruct (filter p rows) as [| y ys] eqn:Ef; [reflexivity | exfalso].
    assert (Hy : In y (filter p rows)) by (rewrite Ef; now left).
    apply filter_In in Hy. destruct Hy as [Hy Hpy].
    apply Hx. apply Hp in Epx. apply Hp in Hpy. rewrite Epx, <- Hpy.
    now apply in_map.
  - now apply IH.
Qed.

Lemma log_of_key (session_id : nat) (sid : string) (r : SessionLog.t) :
  log_of session_id sid r = true <-> log_key r = (session_id, sid).
Proof.
  unfold log_of, log_key. rewrite andb_true_iff, Nat.eqb_eq, String.eqb_eq.
  split; [intros [-> ->]; reflexivity | intros [= -> ->]; auto].
Qed.

Lemma pk_is_key (sid : string) (s : Student.t) :
  pk_is sid s = true <-> Student.student_id s = sid.
Proof. unfold pk_is. apply String.eqb_eq. Qed.

(** [Student.objects.get] finds the student of a primary key that exists. *)
Lemma objects_get_student (db : Database) (s : Student.t) :
  NoDup (map Student.student_id (students db)) ->
  In s (students db) ->
  exists s', objects_get (pk_is (Student.student_id s)) (students db) = Got s'
             /\ Student.student_id s' = Student.student_id s.
Proof.
  intros Hnd Hin. unfold objects_get.
  assert (Hf : In s (filter (pk_is (Student.student_id s)) (students db))).
  { apply filter_In. split; [exact Hin | now apply pk_is_key]. }
  destruct (filter_unique_key Student.student_id (pk_is (Student.student_id s))
              (Student.student_id s) (students db) (pk_is_key _) Hnd)
    as [E | [s' E]]; rewrite E in Hf |- *.
  - contradiction.
  - exists s'. split; [reflexivity |].
    destruct Hf as [<- | []]. reflexivity.
Qed.

Lemma objects_get_missing {A : Type} (p : A -> bool) (rows : list A) :
  (forall r, In r rows -> p r = false) -> objects_get p rows = DoesNotExist.
Proof.
  intros H. unfold objects_get.
  destruct (filter p rows) as [| y ys] eqn:E; [reflexivity | exfalso].
  assert (Hy : In y (filter p rows)) by (rewrite E; now left).
  apply filter_In in Hy. destruct Hy as [Hy Hpy].
  rewrite (H y Hy) in Hpy. discriminate.
Qed.

(** Saving a row of a table with unique ids rewrites that row in place. *)
Lemma save_log_in_place (rows : list SessionLog.t) (old new : SessionLog.t) :
  NoDup (map SessionLog.id rows) ->
  In old rows ->
  SessionLog.id new = SessionLog.id old ->
  exists pre post,
    rows = pre ++ old :: post /\ save_log new rows = pre ++ new :: post.
Proof.
  intros Hnd Hin Hid.
  destruct (in_split old rows Hin) as (pre & post & ->).
  exists pre, post. split; [reflexivity |].
  rewrite map_app in Hnd. cbn [map] in Hnd.
  pose proof (NoDup_remove_2 _ _ _ Hnd) as Hnot.
  unfold save_log. rewrite map_app. cbn [map].
  rewrite Hid, Nat.eqb_refl.
  assert (Hsame : forall l, (forall r, In r l -> In (SessionLog.id r)
                                         (map SessionLog.id pre ++ map SessionLog.id post)) ->
                  map (fun r => if SessionLog.id r =? SessionLog.id old then new else r) l = l).
  { intros l Hl. rewrite <- (map_id l) at 2. apply map_ext_in.
    intros r Hr. destruct (Nat.eqb_spec (SessionLog.id r) (SessionLog.id old)) as [E |];
      [| reflexivity].
    exfalso. apply Hnot. rewrite <- E. now apply Hl. }
  rewrite (Hsame pre), (Hsame post); [reflexivity | |].
  - intros r Hr. apply in_or_app. right. now apply in_map.
  - intros r Hr. apply in_or_app. left. now apply in_map.
Qed.

Lemma filter_in_place {A : Type} (p : A -> bool) (pre post : list A) (old new : A) :
  filter p (pre ++ old :: post) = [old] ->
  p new = true ->
  filter p (pre ++ new :: post) = [new].
Proof.
  intros Hold Hnew. rewrite filter_app in Hold |- *. cbn [filter] in Hold |- *.
  rewrite Hnew.
  destruct (p old) eqn:Epo.
  - destruct (filter p pre) as [| a l]; cbn in Hold.
    + injection Hold as Hpost. now rewrite Hpost.
    + injection Hold as _ Hl. destruct l; discriminate.
  - exfalso.
    assert (Hin : In old (filter p pre ++ filter p post))
      by (rewrite Hold; now left).
    apply in_app_or in Hin.
    destruct Hin as [Hin | Hin]; apply filter_In in Hin;
      destruct Hin as [_ Hp]; congruence.
Qed.
End Tables.

Section GetOrCreate.

Lemma NoDup_snoc {A : Type} (l : list A) (x : A) :
  NoDup l -> ~ In x l -> NoDup (l ++ [x]).
Proof.
  intros Hl Hx. apply NoDup_app; [exact Hl | repeat constructor; intros [] |].
  intros a Ha [<- | []]. contradiction.
Qed.

Lemma next_id_not_in (ids : list nat) : ~ In (next_id ids) ids.
Proof.
  intros H. apply le_fold_max in H. unfold next_id in H. lia.
Qed.

(** [get_or_create] on a table that satisfies the schema. *)
Lemma get_or_create_spec (db : Database) (session : AttendanceSession.t)
                         (student : Student.t) :
  integrity db ->
  exists db1 log created,
    get_or_create db session student = Some (db1, log, created)
    /\ integrity db1
    /\ students db1 = students db
    /\ face_images db1 = face_images db
    /\ In log (session_logs db1)
    /\ log_key log = (AttendanceSession.id session, Student.student_id student)
    /\ records_of db1 (AttendanceSession.id session) (Student.student_id student) = [log]
    /\ ((created = false /\ db1 = db)
        \/ (created = true
            /\ records_of db (AttendanceSession.id session)
                          (Student.student_id student) = []
            /\ session_logs db1 = session_logs db ++ [log]
            /\ SessionLog.status log = absent
            /\ SessionLog.recognized_at log = None
            /\ SessionLog.confidence_score log = None
            /\ SessionLog.recognized_image log = None)).
Proof.
  intros [Hspk Hlpk Hlut].
  unfold get_or_create, objects_get, records_of.
  set (p := log_of (AttendanceSession.id session) (Student.student_id student)).
  destruct (filter_unique_key log_key p
              (AttendanceSession.id session, Student.student_id student)
              (session_logs db) (log_of_key _ _) Hlut) as [E | [r E]]; rewrite E.
  - eexists _, _, true. split; [reflexivity |].
    cbn [students face_images session_logs with_session_logs].
    assert (Hp : p (SessionLog.mk (next_id (map SessionLog.id (session_logs db)))
                      (AttendanceSession.id session) (Student.student_id student)
                      absent None None None) = true).
    { unfold p, log_of. cbn. now rewrite Nat.eqb_refl, String.eqb_refl. }
    repeat split.
    + exact Hspk.
    + cbn [session_logs with_session_logs]. rewrite map_app.
      apply NoDup_snoc; [exact Hlpk |].
      apply next_id_not_in.
    + cbn [session_logs with_session_logs]. rewrite map_app.
      apply NoDup_snoc; [exact Hlut |].
      cbn [log_key SessionLog.session SessionLog.student].
      intros Hin. apply in_map_iff in Hin. destruct Hin as (r & Hk & Hr).
      assert (Hf : In r (filter p (session_logs db))).
      { apply filter_In. split; [exact Hr | now apply log_of_key]. }
      now rewrite E in Hf.
    + apply in_or_app. right. now left.
    + rewrite filter_app, E. cbn [filter app]. now rewrite Hp.
    + right. auto 10.
  - exists db, r, false. split; [reflexivity |].
    assert (Hf : In r (filter p (session_logs db))) by (rewrite E; now left).
    apply filter_In in Hf. destruct Hf as [Hr Hpr].
    repeat split; try assumption.
    + now apply log_of_key.
    + left. auto.
Qed.
End GetOrCreate.

Section MarkAttendance.
Import FaceRecognitionService.

(** Writing back a row that keeps its id and its (session, student). *)
Lemma save_marked (db1 : Database) (old new : SessionLog.t) :
  integrity db1 ->
  In old (session_logs db1) ->
  SessionLog.id new = SessionLog.id old ->
  log_key new = log_key old ->
  records_of db1 (fst (log_key old)) (snd (log_key old)) = [old] ->
  let db2 := with_session_logs db1 (save_log new (session_logs db1)) in
  integrity db2
  /\ records_of db2 (fst (log_key old)) (snd (log_key old)) = [new]
  /\ (forall r, In r (session_logs db1) -> log_key r <> log_key old ->
                In r (session_logs db2)).
Proof.
  intros [Hspk Hlpk Hlut] Hin Hid Hkey Hrec. cbv zeta.
  destruct (save_log_in_place (session_logs db1) old new Hlpk Hin Hid)
    as (pre & post & Erows & Esave).
  unfold records_of in *. cbn [session_logs students with_session_logs].
  rewrite Esave. rewrite Erows in Hlpk, Hlut, Hrec.
  repeat split.
  - exact Hspk.
  - cbn [session_logs with_session_logs].
    rewrite map_app in Hlpk |- *. cbn [map] in Hlpk |- *. now rewrite Hid.
  - cbn [session_logs with_session_logs].
    rewrite map_app in Hlut |- *. cbn [map] in Hlut |- *. now rewrite Hkey.
  - apply (filter_in_place _ pre post old new Hrec).
    apply log_of_key. rewrite Hkey. now destruct (log_key old).
  - intros r Hr Hne. rewrite Erows in Hr.
    apply in_app_or in Hr. apply in_or_app.
    destruct Hr as [Hr | [<- | Hr]]; [now left | congruence | right; now right].
Qed.

(** [mark_attendance] for a student that exists, on a table that
    satisfies the schema, with a frame [cv2.imencode] accepts: the record
    of (session, student) is created absent when it is missing, then it
    is marked present, stamped and written back; no other record
    changes. *)
Lemma mark_attendance_spec (db : Database) (session : AttendanceSession.t)
                           (s : Student.t) (confidence : R)
                           (frame : option Frame) (now_file now_mark : Z) :
  integrity db ->
  In s (students db) ->
  frame <> Some BadFrame ->
  exists db2 log,
    mark_attendance db session (Student.student_id s) confidence frame
                    now_file now_mark = (db2, Some log)
    /\ integrity db2
    /\ students db2 = students db
    /\ face_images db2 = face_images db
    /\ records_of db2 (AttendanceSession.id session) (Student.student_id s) = [log]
    /\ SessionLog.status log = present
    /\ SessionLog.recognized_at log = Some now_mark
    /\ (confidence <> 0%R -> SessionLog.confidence_score log = Some confidence)
    /\ (records_of db (AttendanceSession.id session) (Student.student_id s) = [] ->
        exists s' db1 created,
          Student.student_id s' = Student.student_id s
          /\ get_or_create db session s' = Some (db1, created, true)
          /\ SessionLog.status created = absent
          /\ SessionLog.id log = SessionLog.id created)
    /\ (forall r, In r (session_logs db) ->
                  log_key r <> (AttendanceSession.id session, Student.student_id s) ->
                  In r (session_logs db2)).
Proof.
  intros Hint Hs Hframe.
  destruct (objects_get_student db s (student_pk db Hint) Hs) as (s' & Hget & Hsid).
  destruct (get_or_create_spec db session s' Hint)
    as (db1 & log0 & created & Hgoc & Hint1 & Hst1 & Hfi1 & Hin0 & Hkey0 & Hrec1 & Hcase).
  rewrite Hsid in Hkey0, Hrec1, Hcase.
  unfold mark_attendance. rewrite Hget, Hgoc.
  set (log1 := match frame with
               | Some (GoodFrame _ (Some buffer)) =>
                   SessionLog.set_recognized_image log0
                     (mkEvidence (Student.student_id s) now_file buffer)
               | _ => log0
               end).
  set (log2 := SessionLog.mark_present log1 (Some confidence) None now_mark).
  assert (Hid1 : SessionLog.id log1 = SessionLog.id log0
                 /\ log_key log1 = log_key log0
                 /\ SessionLog.confidence_score log1 = SessionLog.confidence_score log0).
  { unfold log1. destruct frame as [[| faces [buffer |]] |]; auto. }
  destruct Hid1 as (Hid1 & Hkey1 & Hconf1).
  assert (Hattached :
            match frame with
            | None => Some log0
            | Some BadFrame => None
            | Some (GoodFrame _ None) => Some log0
            | Some (GoodFrame _ (Some buffer)) =>
                Some (SessionLog.set_recognized_image log0
                        (mkEvidence (Student.student_id s) now_file buffer))
            end = Some log1).
  { unfold log1. destruct frame as [[| faces [buffer |]] |]; congruence. }
  rewrite Hattached. fold log2.
  assert (Hkey2 : log_key log2 = log_key log0) by (rewrite <- Hkey1; reflexivity).
  assert (Hid2 : SessionLog.id log2 = SessionLog.id log0) by (rewrite <- Hid1; reflexivity).
  assert (Hrec1' : records_of db1 (fst (log_key log0)) (snd (log_key log0)) = [log0])
    by (now rewrite Hkey0).
  destruct (save_marked db1 log0 log2 Hint1 Hin0 Hid2 Hkey2 Hrec1')
    as (Hint2 & Hrec2 & Hothers).
  rewrite Hkey0 in Hrec2, Hothers. cbn [fst snd] in Hrec2.
  eexists _, log2. split; [reflexivity |].
  split; [exact Hint2 |]. split; [exact Hst1 |]. split; [exact Hfi1 |].
  split; [exact Hrec2 |]. split; [reflexivity |]. split; [reflexivity |].
  split; [| split].
  - intros Hc. unfold log2, SessionLog.mark_present, SessionLog.truthy_float.
    cbn [SessionLog.confidence_score].
    destruct (Req_dec_T confidence 0); [contradiction | reflexivity].
  - intros Hnone. destruct Hcase as [[-> ->] | (-> & _ & _ & Habs & _)].
    + rewrite Hnone in Hrec1. discriminate.
    + exists s', db1, log0. auto.
  - intros r Hr Hne. apply Hothers; [| exact Hne].
    destruct Hcase as [[_ ->] | (_ & _ & -> & _)]; [exact Hr |].
    apply in_or_app. now left.
Qed.

(** [mark_attendance] for a student id that is not in the table. *)
Lemma mark_attendance_unknown (db : Database) (session : AttendanceSession.t)
                              (student_id : string) (confidence : R)
                              (frame : option Frame) (now_file now_mark : Z) :
  (forall s, In s (students db) -> Student.student_id s <> student_id) ->
  mark_attendance db session student_id confidence frame now_file now_mark
  = (db, None).
Proof.
  intros Hnone. unfold mark_attendance.
  rewrite objects_get_missing; [reflexivity |].
  intros s Hs. unfold pk_is. apply String.eqb_neq. now apply Hnone.
Qed.
End MarkAttendance.

Lemma truthy_float_zero : SessionLog.truthy_float (Some 0%R) = false.
Proof.
  unfold SessionLog.truthy_float.
  destruct (Req_dec_T 0 0); [reflexivity | contradiction].
Qed.

Lemma truthy_float_nonzero (c : R) :
  c <> 0%R -> SessionLog.truthy_float (Some c) = true.
Proof.
  intros H. unfold SessionLog.truthy_float.
  destruct (Req_dec_T c 0); [contradiction | reflexivity].
Qed.

(** C5.  [mark_attendance] with confidence 0.0 for a student already
    present with confidence 0.9: the record stays present and the timestamp
    is refreshed, but the stored confidence is still 0.9, because
    [mark_present] tests [if confidence:] and 0.0 is falsy. *)
Theorem mark_attendance_zero_confidence_not_stored :
  FaceRecognitionService.mark_attendance
    Sample.marked_db Sample.lecture "S1" 0%R None 20 21
  = (with_session_logs Sample.marked_db
       [SessionLog.mk 1 1 "S1" present (Some 21%Z) (Some (9 / 10)%R) None],
     Some (SessionLog.mk 1 1 "S1" present (Some 21%Z) (Some (9 / 10)%R) None))
  /\ SessionLog.confidence_score
       (SessionLog.mark_present Sample.alice_present (Some 0%R) None 21)
     <> Some 0%R.
Proof.
  assert (Hmark : SessionLog.mark_present Sample.alice_present (Some 0%R) None 21
                  = SessionLog.mk 1 1 "S1" present (Some 21%Z) (Some (9 / 10)%R) None).
  { unfold SessionLog.mark_present. now rewrite truthy_float_zero. }
  split.
  - unfold FaceRecognitionService.mark_attendance, get_or_create, objects_get.
    cbn [Sample.marked_db Sample.lecture students session_logs filter pk_is log_of
         Sample.alice Sample.bob Sample.alice_present Student.student_id
         String.eqb Ascii.eqb Bool.eqb AttendanceSession.id SessionLog.session
         SessionLog.student Nat.eqb andb].
    change (SessionLog.mk 1 1 "S1" present (Some 5%Z) (Some (9 / 10)%R) None)
      with Sample.alice_present.
    rewrite Hmark. reflexivity.
  - rewrite Hmark. cbn. intros [= H]. lra.
Qed.

(** For every confidence other than 0.0 the last write wins: the record of
    (session, student) is present, stamped with the time of the call and
    carries the confidence of the call, whatever it carried before. *)
Lemma mark_attendance_last_write_wins
    (db : Database) (session : AttendanceSession.t) (s : Student.t)
    (c1 c2 : R) (f1 f2 : option Frame) (t1 t1' t2 t2' : Z) :
  integrity db -> In s (students db) ->
  f1 <> Some BadFrame -> f2 <> Some BadFrame -> c2 <> 0%R ->
  exists db1 log1 db2 log2,
    FaceRecognitionService.mark_attendance
      db session (Student.student_id s) c1 f1 t1 t1' = (db1, Some log1)
    /\ FaceRecognitionService.mark_attendance
         db1 session (Student.student_id s) c2 f2 t2 t2' = (db2, Some log2)
    /\ SessionLog.status log1 = present
    /\ SessionLog.status log2 = present
    /\ SessionLog.recognized_at log2 = Some t2'
    /\ SessionLog.confidence_score log2 = Some c2
    /\ records_of db2 (AttendanceSession.id session) (Student.student_id s) = [log2].
Proof.
  intros Hint Hs Hf1 Hf2 Hc2.
  destruct (mark_attendance_spec db session s c1 f1 t1 t1' Hint Hs Hf1)
    as (db1 & log1 & E1 & Hint1 & Hst1 & _ & _ & Hp1 & _).
  rewrite <- Hst1 in Hs.
  destruct (mark_attendance_spec db1 session s c2 f2 t2 t2' Hint1 Hs Hf2)
    as (db2 & log2 & E2 & _ & _ & _ & Hrec2 & Hp2 & Hat2 & Hconf2 & _).
  exists db1, log1, db2, log2. auto 10.
Qed.

(** C7, as the code has it.  [mark_attendance] with a student id that is
    not in the table returns [None] -- the value it returns after any other
    failure as well -- without a second attempt, and the database is the
    one it was given. *)
Theorem mark_attendance_unknown_identity
    (db : Database) (session : AttendanceSession.t) (student_id : string)
    (confidence : R) (frame : option Frame) (now_file now_mark : Z) :
  (forall s, In s (students db) -> Student.student_id s <> student_id) ->
  FaceRecognitionService.mark_attendance
    db session student_id confidence frame now_file now_mark = (db, None).
Proof. apply mark_attendance_unknown. Qed.

Lemma sample_has_no_S9 :
  forall s, In s (students Sample.db) -> Student.student_id s <> "S9"%string.
Proof. intros s [<- | [<- | []]]; discriminate. Qed.

Lemma mark_attendance_unknown_identity_witness :
  (forall s, In s (students Sample.db) -> Student.student_id s <> "S9"%string)
  /\ FaceRecognitionService.mark_attendance
       Sample.db Sample.lecture "S9" (9 / 10)%R None 20 21 = (Sample.db, None).
Proof.
  split; [exact sample_has_no_S9 |].
  exact (mark_attendance_unknown_identity
           Sample.db Sample.lecture "S9" (9 / 10)%R None 20 21 sample_has_no_S9).
Defined.

(** C7, as stated, fails: the result for an unknown student id ("S9") and
    the result for a known student whose frame cannot be encoded are the
    same [None], so no caller can tell the unknown identity from the
    result. *)
Lemma unknown_identity_result_is_untyped :
  let unknown := FaceRecognitionService.mark_attendance
                   Sample.db Sample.lecture "S9" (9 / 10)%R None 20 21 in
  let known := FaceRecognitionService.mark_attendance
                 Sample.db Sample.lecture "S1" (9 / 10)%R (Some BadFrame) 20 21 in
  (forall s, In s (students Sample.db) -> Student.student_id s <> "S9"%string)
  /\ In Sample.alice (students Sample.db)
  /\ snd unknown = None
  /\ snd known = None
  /\ ~ exists is_unknown_identity : option SessionLog.t -> bool,
         is_unknown_identity (snd unknown) = true
         /\ is_unknown_identity (snd known) = false.
Proof.
  cbv zeta.
  assert (Hu : snd (FaceRecognitionService.mark_attendance
                      Sample.db Sample.lecture "S9" (9 / 10)%R None 20 21) = None)
    by reflexivity.
  assert (Hk : snd (FaceRecognitionService.mark_attendance
                      Sample.db Sample.lecture "S1" (9 / 10)%R (Some BadFrame) 20 21)
               = None)
    by reflexivity.
  split; [exact sample_has_no_S9 |]. split; [now left |].
  split; [exact Hu |]. split; [exact Hk |].
  intros (f & Ht & Hf). rewrite Hu in Ht. rewrite Hk in Hf. congruence.
Qed.

(* ================================================================== *)
(** * Properties of the initialisation of a session                     *)
(* ================================================================== *)

Section Initialize.
Import FaceRecognitionService.

Lemma records_of_unique (db : Database) (log : SessionLog.t) :
  integrity db ->
  In log (session_logs db) ->
  records_of db (SessionLog.session log) (SessionLog.student log) = [log].
Proof.
  intros Hint Hin. unfold records_of.
  assert (Hf : In log (filter (log_of (SessionLog.session log) (SessionLog.student log))
                              (session_logs db))).
  { apply filter_In. split; [exact Hin | now apply log_of_key]. }
  destruct (filter_unique_key log_key _ _ (session_logs db)
              (log_of_key (SessionLog.session log) (SessionLog.student log))
              (log_unique_together db Hint)) as [E | [r E]]; rewrite E in Hf |- *.
  - contradiction.
  - destruct Hf as [<- | []]. reflexivity.
Qed.

Lemma initialize_loop_first (session : AttendanceSession.t)
                            (studs : list Student.t) :
  forall (db : Database) (acc : list SessionLog.t),
    integrity db ->
    exists db1 logs,
      initialize_loop db session studs acc = (db1, Some (acc ++ logs))
      /\ integrity db1
      /\ students db1 = students db
      /\ incl (session_logs db) (session_logs db1)
      /\ Forall2 (logged db1 session) studs logs
      /\ (forall r, In r (session_logs db1) ->
                    In r (session_logs db)
                    \/ (SessionLog.status r = absent
                        /\ SessionLog.session r = AttendanceSession.id session
                        /\ exists s, In s studs
                                     /\ SessionLog.student r = Student.student_id s)).
Proof.
  induction studs as [| s studs IH]; intros db acc Hint.
  - exists db, []. cbn. rewrite app_nil_r.
    repeat split; auto using incl_refl; apply Hint.
  - destruct (get_or_create_spec db session s Hint)
      as (db1 & log & created & Hgoc & Hint1 & Hst1 & _ & Hin & Hkey & _ & Hcase).
    destruct (IH db1 (acc ++ [log]) Hint1)
      as (db2 & logs & Eloop & Hint2 & Hst2 & Hincl & Hall & Hnew).
    exists db2, (log :: logs). cbn [initialize_loop]. rewrite Hgoc, Eloop.
    rewrite <- app_assoc. split; [reflexivity |].
    assert (Hincl1 : incl (session_logs db) (session_logs db1)).
    { destruct Hcase as [[_ ->] | (_ & _ & -> & _)];
        [apply incl_refl | apply incl_appl, incl_refl]. }
    split; [exact Hint2 |]. split; [congruence |].
    split; [eapply incl_tran; eassumption |].
    split.
    + constructor; [| exact Hall]. split; [now apply Hincl | exact Hkey].
    + intros r Hr. destruct (Hnew r Hr) as [Hr1 | (Ha & Hs & s' & Hs' & Hid)].
      * destruct Hcase as [[_ ->] | (_ & _ & Elogs & Habs & _)]; [now left |].
        rewrite Elogs in Hr1. apply in_app_or in Hr1.
        destruct Hr1 as [Hr1 | [<- | []]]; [now left | right].
        injection Hkey as Hks Hkst.
        split; [exact Habs |]. split; [exact Hks |].
        exists s. split; [now left | exact Hkst].
      * right. split; [exact Ha |]. split; [exact Hs |].
        exists s'. split; [now right | exact Hid].
Qed.

Lemma initialize_loop_again (session : AttendanceSession.t) (db : Database) :
  integrity db ->
  forall (studs : list Student.t) (logs acc : list SessionLog.t),
    Forall2 (logged db session) studs logs ->
    initialize_loop db session studs acc = (db, Some (acc ++ logs)).
Proof.
  intros Hint studs logs acc Hall. revert acc.
  induction Hall as [| s log studs logs [Hin Hkey] _ IH]; intros acc.
  - cbn. now rewrite app_nil_r.
  - cbn [initialize_loop]. unfold get_or_create, objects_get.
    pose proof (records_of_unique db log Hint Hin) as Hrec.
    injection Hkey as Hks Hkst. rewrite Hks, Hkst in Hrec.
    unfold records_of in Hrec. rewrite Hrec.
    rewrite IH, <- app_assoc. reflexivity.
Qed.

(** [initialize_session_logs] is idempotent and leaves exactly one record
    for every active student -- of any course. *)
Lemma initialize_session_logs_idempotent (db : Database)
                                         (session : AttendanceSession.t) :
  integrity db ->
  exists db1 logs,
    initialize_session_logs db session = (db1, Some logs)
    /\ initialize_session_logs db1 session = (db1, Some logs)
    /\ integrity db1
    /\ (forall s, In s (students db) -> Student.is_active s = true ->
                  exists log,
                    records_of db1 (AttendanceSession.id session)
                               (Student.student_id s) = [log])
    /\ (forall r, In r (session_logs db1) ->
                  In r (session_logs db)
                  \/ (SessionLog.status r = absent
                      /\ SessionLog.session r = AttendanceSession.id session
                      /\ exists s, In s (students db) /\ Student.is_active s = true
                                   /\ SessionLog.student r = Student.student_id s)).
Proof.
  intros Hint. unfold initialize_session_logs.
  destruct (initialize_loop_first session (filter Student.is_active (students db))
              db [] Hint)
    as (db1 & logs & E1 & Hint1 & Hst1 & _ & Hall & Hnew).
  exists db1, logs. cbn [app] in E1.
  split; [exact E1 |]. rewrite Hst1.
  split; [exact (initialize_loop_again session db1 Hint1 _ logs [] Hall) |].
  split; [exact Hint1 |]. split.
  - intros s Hs Hact.
    assert (Hsf : In s (filter Student.is_active (students db)))
      by (apply filter_In; auto).
    clear E1 Hnew. induction Hall as [| s0 log studs logs' [Hin Hkey] _ IH];
      [contradiction |].
    destruct Hsf as [-> | Hsf]; [| now apply IH].
    exists log. injection Hkey as Hks Hkst. rewrite <- Hks, <- Hkst.
    now apply records_of_unique.
  - intros r Hr. destruct (Hnew r Hr) as [| (Ha & Hs & s & Hin & Hid)]; [now left |].
    right. apply filter_In in Hin. destruct Hin as [Hin Hact].
    split; [exact Ha |]. split; [exact Hs |]. now exists s.
Qed.
End Initialize.

(** C4.  [initialize_session_logs] iterates over
    [Student.objects.filter(is_active=True)], every active student of every
    course: for the COET lecture it creates an absent record for the BIT
    student "S2" too, whereas the loop of [create_session] in [views.py]
    creates the record of the COET student only. *)
Theorem initialize_session_logs_not_scoped :
  fst (FaceRecognitionService.initialize_session_logs Sample.db Sample.lecture)
  = with_session_logs Sample.db
      [SessionLog.mk 1 1 "S1" absent None None None;
       SessionLog.mk 2 1 "S2" absent None None None]
  /\ Student.student_id Sample.bob = "S2"%string
  /\ Student.course Sample.bob <> AttendanceSession.course Sample.lecture
  /\ Views.create_session_logs Sample.db Sample.lecture
     = Some (with_session_logs Sample.db
               [SessionLog.mk 1 1 "S1" absent None None None]).
Proof.
  repeat split. discriminate.
Qed.

(* ================================================================== *)
(** * Properties of the streaming loop                                  *)
(* ================================================================== *)

Section Streaming.
Import FaceRecognitionService.

Lemma in_set_spec (s : string) (l : list string) :
  in_set s l = true <-> In s l.
Proof.
  unfold in_set. rewrite existsb_exists. split.
  - intros (x & Hx & E). apply String.eqb_eq in E. now subst.
  - intros H. exists s. split; [exact H | apply String.eqb_refl].
Qed.

(** A match names an element of the known ids and comes from a frame
    that [cv2] accepts. *)
Lemma recognize_in_known (self : t) (frame : Frame) (known : list encoding)
                         (ids : list string) (sid : string) (c : R) :
  recognize_face_from_frame self frame known ids = Some (sid, c) ->
  In sid ids /\ frame <> BadFrame.
Proof.
  destruct frame as [| faces jpeg]; [discriminate |].
  destruct faces as [| q more]; [discriminate |].
  cbn [recognize_face_from_frame]. unfold match_face.
  destruct (0 <? _)%nat; [| discriminate].
  destruct (Rle_dec _ _); [| discriminate].
  destruct (nth_error ids _) as [sid' |] eqn:E; [| discriminate].
  intros [= <- _]. split; [| discriminate].
  eapply nth_error_In, E.
Qed.

Lemma stream_body_invariant (self : t) (session : AttendanceSession.t)
                            (db0 : Database) (known : list encoding)
                            (ids : list string) (tick : Tick) (st : Run) :
  (forall sid, In sid ids ->
               exists s, In s (students db0) /\ Student.student_id s = sid) ->
  run_invariant db0 st ->
  run_invariant db0 (flow_state (stream_body self session known ids tick st)).
Proof.
  intros Hknown Hinv. unfold stream_body.
  destruct (AttendanceSession.is_active session (tick_now tick)); [| exact Hinv].
  destruct (tick_frame tick) as [frame |]; [| exact Hinv].
  assert (Hstep : run_invariant db0
            match recognize_face_from_frame self frame known ids with
            | Some (student_id, confidence) =>
                if truthy_str student_id
                   && negb (in_set student_id (recognized_students st))
                then
                  let (db', session_log) :=
                    mark_attendance (run_db st) session student_id confidence
                                    (Some frame) (tick_file_now tick)
                                    (tick_mark_now tick) in
                  mkRun db'
                        (match session_log with
                         | Some _ => student_id :: recognized_students st
                         | None => recognized_students st
                         end)
                        (mark_calls st ++ [student_id])
                else st
            | None => st
            end).
  { destruct (recognize_face_from_frame self frame known ids) as [[sid c] |] eqn:Erec;
      [| exact Hinv].
    destruct (truthy_str sid && negb (in_set sid (recognized_students st))) eqn:Eguard;
      [| exact Hinv].
    apply andb_prop in Eguard. destruct Eguard as [_ Hnew].
    apply negb_true_iff in Hnew.
    assert (Hnotseen : ~ In sid (recognized_students st)).
    { intros Hin. apply in_set_spec in Hin. congruence. }
    apply recognize_in_known in Erec. destruct Erec as [Hin Hgood].
    destruct (Hknown sid Hin) as (s & Hs & <-).
    destruct Hinv as [Hint Hst Hnd Hseen].
    rewrite <- Hst in Hs.
    destruct (mark_attendance_spec (run_db st) session s c (Some frame)
                (tick_file_now tick) (tick_mark_now tick) Hint Hs)
      as (db2 & log & Emark & Hint2 & Hst2 & _); [congruence |].
    rewrite Emark. constructor; cbn [run_db mark_calls recognized_students].
    - exact Hint2.
    - congruence.
    - apply NoDup_snoc; [exact Hnd |]. intros Hc. apply Hnotseen. now apply Hseen.
    - intros x Hx. apply in_app_or in Hx.
      destruct Hx as [Hx | [<- | []]]; [right; now apply Hseen | now left]. }
  destruct frame; [exact Hstep |].
  destruct (Z.land (tick_key tick) 255 =? 113)%Z; exact Hstep.
Qed.

Lemma stream_loop_invariant (self : t) (session : AttendanceSession.t)
                            (db0 : Database) (known : list encoding)
                            (ids : list string) (ticks : list Tick) :
  (forall sid, In sid ids ->
               exists s, In s (students db0) /\ Student.student_id s = sid) ->
  forall st, run_invariant db0 st ->
             run_invariant db0 (stream_loop self session known ids ticks st).
Proof.
  intros Hknown. induction ticks as [| tick ticks IH]; intros st Hinv; [exact Hinv |].
  cbn [stream_loop].
  pose proof (stream_body_invariant self session db0 known ids tick st Hknown Hinv) as H.
  destruct (stream_body self session known ids tick st) as [st' | st'];
    cbn [flow_state] in H; [now apply IH | exact H].
Qed.

Lemma process_video_stream_invariant (self : t) (db : Database)
                                     (session : AttendanceSession.t)
                                     (ticks : list Tick) :
  integrity db -> run_invariant db (process_video_stream self db session ticks).
Proof.
  intros Hint. unfold process_video_stream, stream_known_faces.
  assert (Hstart : run_invariant db (mkRun db [] [])).
  { constructor; cbn; auto using NoDup_nil. }
  pose proof (load_known_faces_students db None) as Hknown.
  destruct (load_known_faces db None) as [known ids]. cbn [snd] in Hknown.
  destruct (List.length known =? 0)%nat; [exact Hstart |].
  apply stream_loop_invariant; [| exact Hstart].
  intros sid Hin. destruct (Hknown sid Hin) as (s & Hs & Hid & _). now exists s.
Qed.
End Streaming.

(** C8.  In a run of [process_video_stream] on a database that satisfies
    the schema, over any finite sequence of ticks, [mark_attendance] is
    called at most once for an identity, and every identity it was called
    for is in the set of recognized students; an iteration whose frame
    shows no face leaves the database, the set and the calls as they are
    and goes on to the next frame, unless the session is over or the key
    [q] was pressed, in which case the loop ends in that same state. *)
Theorem stream_marks_each_identity_once
    (self : FaceRecognitionService.t) (db : Database)
    (session : AttendanceSession.t) (ticks : list FaceRecognitionService.Tick) :
  integrity db ->
  let run := FaceRecognitionService.process_video_stream self db session ticks in
  NoDup (FaceRecognitionService.mark_calls run)
  /\ (forall sid, In sid (FaceRecognitionService.mark_calls run) ->
                  In sid (FaceRecognitionService.recognized_students run))
  /\ (forall known ids tick st jpeg,
         FaceRecognitionService.tick_frame tick = Some (GoodFrame [] jpeg) ->
         FaceRecognitionService.stream_body self session known ids tick st
         = if AttendanceSession.is_active session (FaceRecognitionService.tick_now tick)
              && negb (Z.land (FaceRecognitionService.tick_key tick) 255 =? 113)%Z
           then FaceRecognitionService.Continue st
           else FaceRecognitionService.Break st).
Proof.
  intros Hint run.
  destruct (process_video_stream_invariant self db session ticks Hint)
    as [_ _ Hnd Hseen].
  split; [exact Hnd |]. split; [exact Hseen |].
  intros known ids tick st jpeg Hframe.
  unfold FaceRecognitionService.stream_body. rewrite Hframe.
  cbn [FaceRecognitionService.recognize_face_from_frame].
  destruct (AttendanceSession.is_active session (FaceRecognitionService.tick_now tick));
    [| reflexivity].
  destruct (Z.land (FaceRecognitionService.tick_key tick) 255 =? 113)%Z; reflexivity.
Qed.

Lemma sample_integrity : integrity Sample.db.
Proof.
  constructor; cbn.
  - repeat constructor; cbn; intuition discriminate.
  - constructor.
  - constructor.
Qed.

Lemma stream_marks_each_identity_once_witness :
  integrity Sample.db
  /\ NoDup (FaceRecognitionService.mark_calls
              (FaceRecognitionService.process_video_stream
                 FaceRecognitionService.init Sample.db Sample.lecture Sample.ticks)).
Proof.
  split; [exact sample_integrity |].
  exact (proj1 (stream_marks_each_identity_once
                  FaceRecognitionService.init Sample.db Sample.lecture Sample.ticks
                  sample_integrity)).
Defined.

Section SampleRun.
Import FaceRecognitionService.
Local Open Scope R_scope.

Lemma sample_recognizes_alice (jpeg : option bytes) :
  recognize_face_from_frame init (GoodFrame [[0; 0]] jpeg)
                            [[0; 0]; [10; 10]] ["S1"; "S2"]%string
  = Some ("S1"%string, 1 - 0).
Proof.
  cbn [recognize_face_from_frame].
  rewrite match_face_unfold by discriminate. cbv zeta.
  assert (Hd : Np.face_distance [[0; 0]; [10; 10]] [0; 0]
               = [0; Np.norm_diff [10; 10] [0; 0]]).
  { cbn [Np.face_distance map]. f_equal. unfold Np.norm_diff. cbn [Np.sum_sq_diff].
    replace ((0 - 0) * (0 - 0) + ((0 - 0) * (0 - 0) + 0)) with 0 by lra.
    apply sqrt_0. }
  rewrite Hd. cbn [Np.argmin Np.argmin_from].
  destruct (Rlt_dec (Np.norm_diff [10; 10] [0; 0]) 0) as [Hlt |].
  - exfalso. pose proof (norm_diff_nonneg [10; 10] [0; 0]). lra.
  - cbn [nth nth_error init tolerance].
    destruct (Rle_dec 0 (6 / 10)); [reflexivity | lra].
Qed.

(** The sample run: Alice is seen in two frames and marked once. *)
Example sample_run :
  process_video_stream init Sample.db Sample.lecture Sample.ticks
  = mkRun (with_session_logs Sample.db
             [SessionLog.mk 1 1 "S1" present (Some 11%Z) (Some (1 - 0)) None])
          ["S1"%string] ["S1"%string].
Proof.
  unfold process_video_stream, stream_known_faces.
  change (load_known_faces Sample.db None)
    with ([[0; 0]; [10; 10]], ["S1"; "S2"]%string).
  cbn [List.length Nat.eqb Sample.ticks stream_loop].
  unfold stream_body at 1.
  cbn [tick_now tick_frame tick_file_now tick_mark_now tick_key].
  rewrite sample_recognizes_alice.
  change (AttendanceSession.is_active Sample.lecture 10) with true.
  cbn [recognized_students in_set existsb negb truthy_str andb].
  change (truthy_str "S1") with true. cbn [andb negb].
  assert (Hmark : mark_attendance Sample.db Sample.lecture "S1" (1 - 0)
                    (Some (GoodFrame [[0; 0]] None)) 10 11
                  = (with_session_logs Sample.db
                       [SessionLog.mk 1 1 "S1" present (Some 11%Z) (Some (1 - 0)) None],
                     Some (SessionLog.mk 1 1 "S1" present (Some 11%Z) (Some (1 - 0)) None))).
  { unfold mark_attendance, get_or_create, objects_get.
    change (filter (pk_is "S1") (students Sample.db)) with [Sample.alice].
    change (filter (log_of (AttendanceSession.id Sample.lecture)
                           (Student.student_id Sample.alice))
                   (session_logs Sample.db)) with (@nil SessionLog.t).
    cbv iota beta. unfold SessionLog.mark_present.
    rewrite truthy_float_nonzero by lra. reflexivity. }
  cbn [run_db]. rewrite Hmark.
  cbn [mark_calls app].
  change (Z.land 0 255 =? 113)%Z with false. cbv iota.
  unfold stream_body at 1.
  cbn [tick_now tick_frame tick_file_now tick_mark_now tick_key].
  rewrite sample_recognizes_alice.
  change (AttendanceSession.is_active Sample.lecture 12) with true.
  change (truthy_str "S1" && negb (in_set "S1" ["S1"%string]))%bool with false.
  change (Z.land 0 255 =? 113)%Z with false. cbv iota.
  reflexivity.
Qed.
End SampleRun.

(* ================================================================== *)
(** * Further properties of the matcher and of the known set            *)
(* ================================================================== *)

Lemma recognize_confidence_range_lemma
    (self : FaceRecognitionService.t) (frame : Frame)
    (known : list encoding) (ids : list string) (sid : string) (c : R) :
  FaceRecognitionService.recognize_face_from_frame self frame known ids
    = Some (sid, c) ->
  (1 - FaceRecognitionService.tolerance self <= c)%R /\ (c <= 1)%R.
Proof.
  intros Hrec.
  destruct frame as [| faces jpeg]; [discriminate |].
  destruct faces as [| q more]; [discriminate |].
  cbn [FaceRecognitionService.recognize_face_from_frame] in Hrec.
  destruct known as [| k known']; [discriminate |].
  rewrite match_face_unfold in Hrec by discriminate. cbv zeta in Hrec.
  set (d := Np.face_distance (k :: known') q) in *.
  destruct (Rle_dec (nth (Np.argmin d) d 0%R) (FaceRecognitionService.tolerance self))
    as [Hle |]; [| discriminate].
  destruct (nth_error ids (Np.argmin d)); [| discriminate].
  injection Hrec as _ <-.
  assert (Hd : d <> []) by (unfold d; discriminate).
  destruct (argmin_scanned d Hd) as (Hi & _ & _).
  assert (Hnn : (0 <= nth (Np.argmin d) d 0)%R).
  { unfold d in Hi |- *. rewrite face_distance_length in Hi.
    rewrite face_distance_nth by exact Hi. apply norm_diff_nonneg. }
  change ((1 - FaceRecognitionService.tolerance self <= 1 - nth (Np.argmin d) d 0)%R
          /\ (1 - nth (Np.argmin d) d 0 <= 1)%R).
  split; lra.
Qed.


(** A match of [recognize_face_from_frame] names one of the known student
    ids, and its confidence lies between one minus the tolerance and one:
    the distance it comes from is a norm, hence not negative, and passed
    the tolerance test. *)
Theorem recognize_confidence_range
    (self : FaceRecognitionService.t) (frame : Frame)
    (known : list encoding) (ids : list string) (sid : string) (c : R) :
  FaceRecognitionService.recognize_face_from_frame self frame known ids
    = Some (sid, c) ->
  In sid ids
  /\ (1 - FaceRecognitionService.tolerance self <= c)%R
  /\ (c <= 1)%R.
Proof.
  intros Hrec.
  split; [exact (proj1 (recognize_in_known self frame known ids sid c Hrec)) |].
  now apply (recognize_confidence_range_lemma self frame known ids sid c).
Qed.

Lemma recognize_confidence_range_witness :
  FaceRecognitionService.recognize_face_from_frame
    FaceRecognitionService.init (GoodFrame [[0; 0]%R] None)
    [[0; 0]; [10; 10]]%R ["S1"; "S2"]%string = Some ("S1"%string, (1 - 0)%R)
  /\ (1 - FaceRecognitionService.tolerance FaceRecognitionService.init <= 1 - 0)%R.
Proof.
  split; [exact (sample_recognizes_alice None) |].
  exact (proj1 (proj2 (recognize_confidence_range _ _ _ _ _ _
                         (sample_recognizes_alice None)))).
Defined.

(** With a tolerance below zero nothing is ever recognized, and with a
    tolerance below one no match has confidence zero, so that
    [mark_present] stores the confidence of every match. *)
Theorem recognize_tolerance_bounds
    (self : FaceRecognitionService.t) (frame : Frame)
    (known : list encoding) (ids : list string) :
  ((FaceRecognitionService.tolerance self < 0)%R ->
   FaceRecognitionService.recognize_face_from_frame self frame known ids = None)
  /\ ((FaceRecognitionService.tolerance self < 1)%R ->
      forall sid c,
        FaceRecognitionService.recognize_face_from_frame self frame known ids
          = Some (sid, c) ->
        SessionLog.truthy_float (Some c) = true).
Proof.
  split.
  - intros Hneg.
    destruct (FaceRecognitionService.recognize_face_from_frame self frame known ids)
      as [[sid c] |] eqn:E; [exfalso | reflexivity].
    destruct (recognize_confidence_range_lemma self frame known ids sid c E) as (Hlo & Hhi).
    lra.
  - intros Hlt sid c E.
    destruct (recognize_confidence_range_lemma self frame known ids sid c E) as (Hlo & _).
    apply truthy_float_nonzero. lra.
Qed.

Lemma recognize_tolerance_bounds_witness :
  (FaceRecognitionService.tolerance (FaceRecognitionService.mk (-1)%R hog) < 0)%R
  /\ FaceRecognitionService.recognize_face_from_frame
       (FaceRecognitionService.mk (-1)%R hog) (GoodFrame [[0; 0]%R] None)
       [[0; 0]%R] ["S1"%string] = None
  /\ (FaceRecognitionService.tolerance FaceRecognitionService.init < 1)%R
  /\ SessionLog.truthy_float (Some (1 - 0)%R) = true.
Proof.
  assert (H1 : (FaceRecognitionService.tolerance (FaceRecognitionService.mk (-1)%R hog) < 0)%R)
    by (cbn; lra).
  assert (H2 : (FaceRecognitionService.tolerance FaceRecognitionService.init < 1)%R)
    by (cbn; lra).
  split; [exact H1 |].
  split; [exact (proj1 (recognize_tolerance_bounds _ _ _ _) H1) |].
  split; [exact H2 |].
  exact (proj2 (recognize_tolerance_bounds FaceRecognitionService.init
                  (GoodFrame [[0; 0]%R] None) [[0; 0]; [10; 10]]%R ["S1"; "S2"]%string)
               H2 _ _ (sample_recognizes_alice None)).
Defined.

Section KnownPairs.
Import FaceRecognitionService.

Lemma load_one_eq (acc : list encoding * list string) (fi : FaceImage.t) (s : Student.t) :
  load_one acc (fi, s)
  = match FaceImage.face_encoding fi with
    | Some (PickledBlob e) => (fst acc ++ [e], snd acc ++ [Student.student_id s])
    | _ => acc
    end.
Proof.
  destruct acc as [es ids]. unfold load_one.
  destruct (FaceImage.face_encoding fi) as [[| | e] |]; reflexivity.
Qed.

Lemma combine_snoc {A B : Type} (l : list A) (l' : list B) (a : A) (b : B) :
  List.length l = List.length l' ->
  combine (l ++ [a]) (l' ++ [b]) = combine l l' ++ [(a, b)].
Proof.
  revert l'. induction l as [| x l IH]; intros [| y l'] H; try discriminate.
  - reflexivity.
  - cbn. f_equal. apply IH. now injection H.
Qed.

Lemma load_fold_pairs (rows : list (FaceImage.t * Student.t)) :
  forall (acc : list encoding * list string) (e : encoding) (sid : string),
    List.length (fst acc) = List.length (snd acc) ->
    (In (e, sid) (known_pairs (fold_left load_one rows acc))
     <-> In (e, sid) (known_pairs acc)
         \/ exists fi s, In (fi, s) rows
                         /\ FaceImage.face_encoding fi = Some (PickledBlob e)
                         /\ Student.student_id s = sid).
Proof.
  induction rows as [| [fi s] rows IH]; intros acc e sid Hlen; cbn [fold_left].
  - split; [now left | intros [H | (fi & s & [] & _)]; exact H].
  - rewrite IH by (now apply load_one_parallel). rewrite load_one_eq.
    destruct (FaceImage.face_encoding fi) as [[| | e0] |] eqn:Eenc.
    1, 2, 4:
      (split; [intros [H | (fi' & s' & Hin & Henc & Hid)];
                 [now left | right; exists fi', s'; split; [now right | auto]]
              | intros [H | (fi' & s' & [Heq | Hin] & Henc & Hid)];
                 [now left
                 | injection Heq as <- <-; congruence
                 | right; exists fi', s'; auto]]).
    unfold known_pairs. cbn [fst snd]. rewrite combine_snoc by exact Hlen.
    split.
    + intros [H | (fi' & s' & Hin & Henc & Hid)].
      * apply in_app_or in H. destruct H as [H | [[= <- <-] | []]]; [now left |].
        right. exists fi, s. split; [now left | auto].
      * right. exists fi', s'. split; [now right | auto].
    + intros [H | (fi' & s' & [Heq | Hin] & Henc & Hid)].
      * left. apply in_or_app. now left.
      * injection Heq as <- <-. left. apply in_or_app. right.
        rewrite Eenc in Henc. injection Henc as <-. rewrite Hid. now left.
      * right. exists fi', s'. auto.
Qed.

Lemma select_related_student_iff (db : Database) (rows : list FaceImage.t)
                                 (fi : FaceImage.t) (s : Student.t) :
  In (fi, s) (select_related_student db rows)
  <-> In fi rows /\ find (pk_is (FaceImage.student fi)) (students db) = Some s.
Proof.
  unfold select_related_student. rewrite in_flat_map. split.
  - intros (fi' & Hin & Hrow).
    destruct (find (pk_is (FaceImage.student fi')) (students db)) as [s' |] eqn:E;
      [| contradiction].
    destruct Hrow as [[= <- <-] | []]. auto.
  - intros [Hin Hfind]. exists fi. split; [exact Hin |]. rewrite Hfind. now left.
Qed.

Lemma known_pairs_iff (db : Database) (course : option string)
                      (e : encoding) (sid : string) :
  In (e, sid) (known_pairs (load_known_faces db course))
  <-> exists fi s,
        In fi (face_images db)
        /\ find (pk_is (FaceImage.student fi)) (students db) = Some s
        /\ FaceImage.angle fi = front
        /\ FaceImage.is_active fi = true
        /\ Student.is_active s = true
        /\ match course with
           | Some c => Student.course s = c
           | None => True
           end
        /\ FaceImage.face_encoding fi = Some (PickledBlob e)
        /\ Student.student_id s = sid.
Proof.
  unfold load_known_faces. rewrite load_fold_pairs by reflexivity.
  assert (Hq : forall fi s,
             In (fi, s)
                (filter (fun row : FaceImage.t * Student.t =>
                           Angle_eqb (FaceImage.angle (fst row)) front
                           && FaceImage.is_active (fst row)
                           && Student.is_active (snd row))
                        (select_related_student db (face_images db)))
             <-> In fi (face_images db)
                 /\ find (pk_is (FaceImage.student fi)) (students db) = Some s
                 /\ FaceImage.angle fi = front
                 /\ FaceImage.is_active fi = true
                 /\ Student.is_active s = true).
  { intros fi s. rewrite filter_In, select_related_student_iff. cbn [fst snd].
    rewrite !andb_true_iff.
    assert (Ha : Angle_eqb (FaceImage.angle fi) front = true <-> FaceImage.angle fi = front)
      by (destruct (FaceImage.angle fi); cbn; split; congruence).
    rewrite Ha. tauto. }
  split.
  - intros [[] | (fi & s & Hin & Henc & Hid)]. exists fi, s.
    destruct course as [c |].
    + apply filter_In in Hin. destruct Hin as [Hin Hc]. cbn [snd] in Hc.
      apply String.eqb_eq in Hc. apply Hq in Hin. tauto.
    + apply Hq in Hin. tauto.
  - intros (fi & s & Hin & Hfind & Hang & Hact & Hsact & Hc & Henc & Hid).
    right. exists fi, s. split; [| auto].
    assert (Hrow : In (fi, s)
                      (filter (fun row : FaceImage.t * Student.t =>
                                 Angle_eqb (FaceImage.angle (fst row)) front
                                 && FaceImage.is_active (fst row)
                                 && Student.is_active (snd row))
                              (select_related_student db (face_images db))))
      by (apply Hq; tauto).
    destruct course as [c |]; [| exact Hrow].
    apply filter_In. split; [exact Hrow |]. cbn [snd]. now apply String.eqb_eq.
Qed.
End KnownPairs.

(** The known set of [load_known_faces] is exactly the set of pairs
    (encoding, student id) of the rows of [FaceImage] that are front,
    active, carry a blob that unpickles to the encoding, and belong to an
    active student -- of the given course, when one is given. *)
Theorem known_set_is_active_front_encodings
    (db : Database) (course : option string) (e : encoding) (sid : string) :
  In (e, sid) (known_pairs (FaceRecognitionService.load_known_faces db course))
  <-> exists fi s,
        In fi (face_images db)
        /\ find (pk_is (FaceImage.student fi)) (students db) = Some s
        /\ FaceImage.angle fi = front
        /\ FaceImage.is_active fi = true
        /\ Student.is_active s = true
        /\ match course with
           | Some c => Student.course s = c
           | None => True
           end
        /\ FaceImage.face_encoding fi = Some (PickledBlob e)
        /\ Student.student_id s = sid.
Proof. apply known_pairs_iff. Qed.

(* ================================================================== *)
(** * Further properties of enrollment                                  *)
(* ================================================================== *)

Section EnrollmentOutcome.
Import FaceRecognitionService.

Lemma save_angle_eq (student : Student.t) (db : Database) (res : Results)
                    (a : Angle) (img : Image) :
  save_angle student (db, res) (a, img)
  = match encode_face img with
    | Some e =>
        let row := FaceImage.mk (next_id (map FaceImage.id (face_images db)))
                                (Student.student_id student) a img
                                (Some (PickledBlob e)) true in
        (with_face_images db (face_images db ++ [row]),
         mkResults (success res) (images res ++ [(a, row)]) (errors res))
    | None =>
        (db,
         mkResults false (images res)
                   (errors res
                      ++ [("No face detected in " ++ angle_name a ++ " image")%string]))
    end.
Proof.
  unfold save_angle. destruct (encode_face img) as [e |].
  - cbn [face_images with_face_images]. rewrite save_face_fresh by reflexivity.
    reflexivity.
  - cbn [face_images with_face_images]. rewrite delete_face_fresh by reflexivity.
    now destruct db.
Qed.

Lemma enrollment_outcome_all (db : Database) (student : Student.t) (f l r : Image) :
  let out := save_student_face_images db student f l r in
  success (snd out) = has_face f && has_face l && has_face r
  /\ List.length (images (snd out)) + List.length (errors (snd out)) = 3
  /\ List.length (face_images (fst out))
     = List.length (face_images db) + List.length (images (snd out))
  /\ students (fst out) = students db
  /\ session_logs (fst out) = session_logs db
  /\ (forall a fi,
         In (a, fi) (images (snd out)) ->
         In fi (face_images (fst out))
         /\ FaceImage.angle fi = a
         /\ FaceImage.student fi = Student.student_id student
         /\ FaceImage.is_active fi = true
         /\ exists img, In (a, img) [(front, f); (left, l); (right, r)]
                        /\ FaceImage.image fi = img
                        /\ option_map PickledBlob (encode_face img)
                           = FaceImage.face_encoding fi)
  /\ (forall a img,
         In (a, img) [(front, f); (left, l); (right, r)] ->
         has_face img = true ->
         exists fi, In (a, fi) (images (snd out))).
Proof.
  cbv zeta. unfold save_student_face_images, has_face. cbn [fold_left].
  rewrite (save_angle_eq student db _ front f).
  destruct (encode_face f) as [ef |] eqn:Ef; cbv zeta;
    rewrite (save_angle_eq student _ _ left l);
    destruct (encode_face l) as [el |] eqn:El; cbv zeta;
    rewrite (save_angle_eq student _ _ right r);
    destruct (encode_face r) as [er |] eqn:Er; cbv zeta;
    cbn [fst snd success images errors face_images students session_logs
         with_face_images app andb];
    (split; [reflexivity |]);
    (split; [reflexivity |]);
    (split; [rewrite ?length_app; cbn; lia |]);
    (split; [reflexivity |]);
    (split; [reflexivity |]);
    split.
  all: try (intros a fi Hin; cbn [In] in Hin;
            repeat (destruct Hin as [Hin | Hin];
                    [injection Hin as <- <-;
                     (split; [rewrite <- ?app_assoc; apply in_or_app; right; cbn; tauto |]);
                     cbn [FaceImage.angle FaceImage.student FaceImage.is_active
                          FaceImage.image FaceImage.face_encoding];
                     repeat (split; [reflexivity |]);
                     eexists; split; [cbn; eauto |];
                     split; [reflexivity |];
                     rewrite ?Ef, ?El, ?Er; reflexivity
                    |]);
            contradiction).
  all: intros a img Hin Hface; cbn [In] in Hin;
       destruct Hin as [Hin | [Hin | [Hin | []]]]; injection Hin as <- <-;
       rewrite ?Ef, ?El, ?Er in Hface; try discriminate;
       eexists; cbn; eauto.
Qed.

Lemma find_primary_key (l : list Student.t) (s : Student.t) :
  NoDup (map Student.student_id l) -> In s l ->
  find (pk_is (Student.student_id s)) l = Some s.
Proof.
  induction l as [| x l IH]; intros Hnd Hin; [contradiction |].
  cbn [map] in Hnd. apply NoDup_cons_iff in Hnd. destruct Hnd as [Hx Hnd].
  cbn [find]. destruct Hin as [-> | Hin].
  - unfold pk_is. now rewrite String.eqb_refl.
  - destruct (pk_is (Student.student_id s) x) eqn:E; [| now apply IH].
    exfalso. apply Hx. apply pk_is_key in E. rewrite E. now apply in_map.
Qed.
End EnrollmentOutcome.



(** Round trip of enrollment and loading: after
    [save_student_face_images] for an active student of the table whose
    front picture shows a face, [load_known_faces] -- without a course or
    with the course of the student -- contains the student id paired with
    the first encoding of the front picture, whatever the other two
    pictures show. *)
Theorem enrolled_front_encoding_is_known
    (db : Database) (student : Student.t) (f l r : Image) (e : encoding) :
  NoDup (map Student.student_id (students db)) ->
  In student (students db) ->
  Student.is_active student = true ->
  FaceRecognitionService.encode_face f = Some e ->
  let db' := fst (FaceRecognitionService.save_student_face_images db student f l r) in
  In (e, Student.student_id student)
     (known_pairs (FaceRecognitionService.load_known_faces db' None))
  /\ In (e, Student.student_id student)
        (known_pairs (FaceRecognitionService.load_known_faces
                        db' (Some (Student.course student)))).
Proof.
  intros Hnd Hin Hact Henc db'.
  destruct (enrollment_outcome_all db student f l r)
    as (_ & _ & _ & Hst & _ & Himg & Hall).
  destruct (Hall front f) as [fi Hfi]; [now left | unfold has_face; now rewrite Henc |].
  destruct (Himg front fi Hfi) as (Hrow & Hang & Hsid & Hfact & img & Hpic & _ & Hblob).
  assert (Himg_f : img = f).
  { destruct Hpic as [[= <-] | [[=] | [[=] | []]]]. reflexivity. }
  subst img. rewrite Henc in Hblob. cbn in Hblob.
  assert (Hfind : find (pk_is (FaceImage.student fi)) (students db') = Some student).
  { unfold db'. rewrite Hst, Hsid. now apply find_primary_key. }
  split; apply known_pairs_iff; exists fi, student; auto 10.
Qed.

Lemma enrolled_front_encoding_is_known_witness :
  NoDup (map Student.student_id (students Sample.db))
  /\ In Sample.alice (students Sample.db)
  /\ In ([1; 2]%R, "S1"%string)
        (known_pairs
           (FaceRecognitionService.load_known_faces
              (fst (FaceRecognitionService.save_student_face_images
                      Sample.db Sample.alice (Decoded [[1; 2]%R]) (Decoded []) Unreadable))
              None)).
Proof.
  split; [exact (student_pk Sample.db sample_integrity) |].
  split; [now left |].
  exact (proj1 (enrolled_front_encoding_is_known
                  Sample.db Sample.alice (Decoded [[1; 2]%R]) (Decoded []) Unreadable
                  [1; 2]%R (student_pk Sample.db sample_integrity)
                  (or_introl eq_refl) eq_refl eq_refl)).
Defined.

(* ================================================================== *)
(** * Further properties of the attendance records                      *)
(* ================================================================== *)

Section MarkEffect.
Import FaceRecognitionService.

Lemma save_log_snoc (rows : list SessionLog.t) (old new : SessionLog.t) :
  NoDup (map SessionLog.id (rows ++ [old])) ->
  SessionLog.id new = SessionLog.id old ->
  save_log new (rows ++ [old]) = rows ++ [new].
Proof.
  intros Hnd Hid. unfold save_log. rewrite map_app. cbn [map].
  rewrite Hid, Nat.eqb_refl. f_equal.
  rewrite <- (map_id rows) at 2. apply map_ext_in.
  intros r Hr.
  destruct (Nat.eqb_spec (SessionLog.id r) (SessionLog.id old)) as [E |]; [| reflexivity].
  exfalso. rewrite map_app in Hnd. cbn [map] in Hnd.
  apply NoDup_remove_2 in Hnd. apply Hnd. rewrite app_nil_r, <- E. now apply in_map.
Qed.

Lemma classic_frame (frame : option Frame) :
  frame = Some BadFrame \/ frame <> Some BadFrame.
Proof. destruct frame as [[| faces jpeg] |]; [now left | right | right]; discriminate. Qed.

(** The record that [mark_attendance] writes. *)
Lemma mark_present_marked (log0 : SessionLog.t) (sid : string) (c : R)
                          (frame : option Frame) (t1 t2 : Z) :
  frame <> Some BadFrame ->
  match frame with
  | None => Some log0
  | Some BadFrame => None
  | Some (GoodFrame _ None) => Some log0
  | Some (GoodFrame _ (Some buffer)) =>
      Some (SessionLog.set_recognized_image log0 (mkEvidence sid t1 buffer))
  end
  = Some (match frame with
          | Some (GoodFrame _ (Some buffer)) =>
              SessionLog.set_recognized_image log0 (mkEvidence sid t1 buffer)
          | _ => log0
          end)
  /\ SessionLog.mark_present
       (match frame with
        | Some (GoodFrame _ (Some buffer)) =>
            SessionLog.set_recognized_image log0 (mkEvidence sid t1 buffer)
        | _ => log0
        end) (Some c) None t2
     = marked log0 sid c frame t1 t2.
Proof.
  intros Hframe. unfold marked, SessionLog.mark_present, SessionLog.truthy_float.
  destruct frame as [[| faces [buffer |]] |]; try congruence;
    (split; [reflexivity |]); cbn; destruct (Req_dec_T c 0); reflexivity.
Qed.

Lemma mark_attendance_effect (db : Database) (session : AttendanceSession.t)
                             (sid : string) (c : R) (frame : option Frame)
                             (t1 t2 : Z) :
  integrity db ->
  let out := mark_attendance db session sid c frame t1 t2 in
  students (fst out) = students db
  /\ face_images (fst out) = face_images db
  /\ mark_effect db session sid c frame t1 t2 (session_logs (fst out)) (snd out)
  /\ (snd out <> None <->
      (exists s, In s (students db) /\ Student.student_id s = sid)
      /\ frame <> Some BadFrame).
Proof.
  intros Hint. cbv zeta. unfold mark_attendance, objects_get.
  destruct (filter_unique_key Student.student_id (pk_is sid) sid (students db)
              (pk_is_key sid) (student_pk db Hint)) as [E | [s E]]; rewrite E.
  - cbn [fst snd]. split; [reflexivity |]. split; [reflexivity |].
    split; [now constructor |].
    split; [congruence |]. intros [(s & Hs & Hid) _]. exfalso.
    assert (Hf : In s (filter (pk_is sid) (students db)))
      by (apply filter_In; split; [exact Hs | now apply pk_is_key]).
    now rewrite E in Hf.
  - assert (Hs : In s (filter (pk_is sid) (students db))) by (rewrite E; now left).
    apply filter_In in Hs. destruct Hs as [Hs Hpk]. apply pk_is_key in Hpk.
    assert (Hex : exists s, In s (students db) /\ Student.student_id s = sid)
      by (now exists s).
    unfold get_or_create, objects_get. rewrite Hpk.
    destruct (filter_unique_key log_key (log_of (AttendanceSession.id session) sid)
                (AttendanceSession.id session, sid) (session_logs db)
                (log_of_key _ _) (log_unique_together db Hint)) as [El | [old El]];
      rewrite El.
    + fold (absent_record db session sid).
      destruct (classic_frame frame) as [-> | Hgood].
      * cbn [fst snd students face_images session_logs with_session_logs].
        split; [reflexivity |]. split; [reflexivity |].
        split; [now apply CreatedThenFailed |].
        split; [congruence | intros [_ H]; congruence].
      * destruct (mark_present_marked (absent_record db session sid) sid c frame t1 t2 Hgood)
          as [-> ->].
        cbn [fst snd students face_images session_logs with_session_logs].
        rewrite save_log_snoc; [| | reflexivity].
        -- split; [reflexivity |]. split; [reflexivity |].
           split; [now apply CreatedAndMarked |].
           split; [auto | discriminate].
        -- rewrite map_app. apply NoDup_snoc; [exact (log_pk db Hint) |].
           apply next_id_not_in.
    + assert (Hold : In old (filter (log_of (AttendanceSession.id session) sid)
                                    (session_logs db))) by (rewrite El; now left).
      apply filter_In in Hold. destruct Hold as [Hold Hkey]. apply log_of_key in Hkey.
      destruct (classic_frame frame) as [-> | Hgood].
      * cbn [fst snd]. split; [reflexivity |]. split; [reflexivity |].
        split; [now constructor |].
        split; [congruence | intros [_ H]; congruence].
      * destruct (mark_present_marked old sid c frame t1 t2 Hgood) as [-> ->].
        cbn [fst snd students face_images session_logs with_session_logs].
        destruct (save_log_in_place (session_logs db) old (marked old sid c frame t1 t2)
                    (log_pk db Hint) Hold eq_refl) as (pre & post & Erows & Esave).
        rewrite Esave.
        split; [reflexivity |]. split; [reflexivity |].
        split; [now apply (MarkedExisting _ _ _ _ _ _ _ _ old pre post) |].
        split; [auto | discriminate].
Qed.
End MarkEffect.

Section MarkInvariants.
Import FaceRecognitionService.

Lemma integrity_same_tables (db db' : Database) :
  students db' = students db -> session_logs db' = session_logs db ->
  integrity db -> integrity db'.
Proof. intros Hs Hl [H1 H2 H3]. constructor; now rewrite ?Hs, ?Hl. Qed.

Lemma integrity_append (db db' : Database) (session : AttendanceSession.t)
                       (sid : string) (new : SessionLog.t) :
  students db' = students db ->
  session_logs db' = session_logs db ++ [new] ->
  SessionLog.id new = next_id (map SessionLog.id (session_logs db)) ->
  log_key new = (AttendanceSession.id session, sid) ->
  filter (log_of (AttendanceSession.id session) sid) (session_logs db) = [] ->
  integrity db -> integrity db'.
Proof.
  intros Hs Hl Hid Hkey Hnone [H1 H2 H3]. constructor; rewrite ?Hs, ?Hl.
  - exact H1.
  - rewrite map_app. apply NoDup_snoc; [exact H2 |]. cbn [map]. rewrite Hid.
    apply next_id_not_in.
  - rewrite map_app. apply NoDup_snoc; [exact H3 |]. cbn [map]. rewrite Hkey.
    intros Hin. apply in_map_iff in Hin. destruct Hin as (r & Hk & Hr).
    assert (Hf : In r (filter (log_of (AttendanceSession.id session) sid)
                              (session_logs db)))
      by (apply filter_In; split; [exact Hr | now apply log_of_key]).
    now rewrite Hnone in Hf.
Qed.

Lemma integrity_replace (db db' : Database) (old new : SessionLog.t)
                        (pre post : list SessionLog.t) :
  students db' = students db ->
  session_logs db = pre ++ old :: post ->
  session_logs db' = pre ++ new :: post ->
  SessionLog.id new = SessionLog.id old ->
  log_key new = log_key old ->
  integrity db -> integrity db'.
Proof.
  intros Hs Hl Hl' Hid Hkey [H1 H2 H3]. constructor; rewrite ?Hs, ?Hl'.
  - exact H1.
  - rewrite Hl in H2. rewrite map_app in H2 |- *. cbn [map] in H2 |- *. now rewrite Hid.
  - rewrite Hl in H3. rewrite map_app in H3 |- *. cbn [map] in H3 |- *. now rewrite Hkey.
Qed.

Lemma marked_fields (old : SessionLog.t) (sid : string) (c : R)
                    (frame : option Frame) (t1 t2 : Z) :
  SessionLog.id (marked old sid c frame t1 t2) = SessionLog.id old
  /\ log_key (marked old sid c frame t1 t2) = log_key old
  /\ SessionLog.status (marked old sid c frame t1 t2) = present
  /\ SessionLog.recognized_at (marked old sid c frame t1 t2) = Some t2.
Proof. repeat split. Qed.

(** What every call of [mark_attendance] keeps, whatever its arguments. *)
Lemma mark_attendance_keeps (db : Database) (session : AttendanceSession.t)
                            (sid : string) (c : R) (frame : option Frame)
                            (t1 t2 : Z) :
  integrity db ->
  let out := mark_attendance db session sid c frame t1 t2 in
  integrity (fst out)
  /\ (stamped db -> stamped (fst out))
  /\ (forall r, log_key r <> (AttendanceSession.id session, sid) ->
                (In r (session_logs db) <-> In r (session_logs (fst out))))
  /\ (forall r, In r (session_logs db) -> SessionLog.status r = present ->
                exists r', In r' (session_logs (fst out))
                           /\ SessionLog.id r' = SessionLog.id r
                           /\ log_key r' = log_key r
                           /\ SessionLog.status r' = present).
Proof.
  intros Hint out.
  destruct (mark_attendance_effect db session sid c frame t1 t2 Hint)
    as (Hst & _ & Heff & _).
  fold out in Hst, Heff.
  inversion Heff as [Hrows Hres | Hbad Hnone Hrows Hres
                     | old pre post Hgood Hkey Hdb Hrows Hres
                     | Hgood Hnone Hrows Hres].
  - split; [now apply (integrity_same_tables db) |].
    split; [unfold stamped; now rewrite Hrows |].
    split; [intros r _; now rewrite Hrows |].
    intros r Hr Hp. exists r. rewrite Hrows. auto.
  - split; [now apply (integrity_append db (fst out) session sid
                         (absent_record db session sid)) |].
    split.
    { intros Hstamped r Hr. rewrite Hrows in Hr. apply in_app_or in Hr.
      destruct Hr as [Hr | [<- | []]]; [now apply Hstamped |].
      cbn. split; [discriminate | congruence]. }
    split.
    { intros r Hne. rewrite Hrows, in_app_iff. cbn [In]. split; [auto |].
      intros [H | [<- | []]]; [exact H |]. exfalso. now apply Hne. }
    intros r Hr Hp. exists r. rewrite Hrows, in_app_iff. auto.
  - destruct (marked_fields old sid c frame t1 t2) as (Hid & Hk & Hp & Hat).
    split; [now apply (integrity_replace db (fst out) old
                         (marked old sid c frame t1 t2) pre post) |].
    split.
    { intros Hstamped r Hr. rewrite Hrows in Hr. apply in_app_or in Hr.
      destruct Hr as [Hr | [<- | Hr]].
      - apply Hstamped. rewrite Hdb. apply in_or_app. now left.
      - rewrite Hp, Hat. split; [discriminate | reflexivity].
      - apply Hstamped. rewrite Hdb. apply in_or_app. right. now right. }
    split.
    { intros r Hne. rewrite Hrows, Hdb, !in_app_iff. cbn [In].
      split; (intros [H | [<- | H]]; [now left | | right; now right]);
        exfalso; apply Hne; congruence. }
    intros r Hr Hpr. rewrite Hdb in Hr. apply in_app_or in Hr.
    destruct Hr as [Hr | [<- | Hr]].
    + exists r. rewrite Hrows, in_app_iff. auto.
    + exists (marked old sid c frame t1 t2). rewrite Hrows, in_app_iff. cbn [In]. auto 6.
    + exists r. rewrite Hrows, in_app_iff. cbn [In]. auto 6.
  - destruct (marked_fields (absent_record db session sid) sid c frame t1 t2)
      as (Hid & Hk & Hp & Hat).
    split; [now apply (integrity_append db (fst out) session sid
                         (marked (absent_record db session sid) sid c frame t1 t2)) |].
    split.
    { intros Hstamped r Hr. rewrite Hrows in Hr. apply in_app_or in Hr.
      destruct Hr as [Hr | [<- | []]]; [now apply Hstamped |].
      rewrite Hp, Hat. split; [discriminate | reflexivity]. }
    split.
    { intros r Hne. rewrite Hrows, in_app_iff. cbn [In]. split; [auto |].
      intros [H | [<- | []]]; [exact H |]. exfalso. now apply Hne. }
    intros r Hr Hpr. exists r. rewrite Hrows, in_app_iff. auto.
Qed.
End MarkInvariants.

(** On a database that satisfies the schema, [mark_attendance] returns a
    record exactly when the student id exists and [cv2.imencode] accepts
    the frame.  The record returned is the student's record of the session
    ([marked]): present, stamped, replaced in place, or appended when the
    student had none.  A call that returns [None] wrote nothing, except
    that it has appended the absent record when the frame was rejected
    after [get_or_create].  The other two tables never change. *)
Theorem mark_attendance_outcome
    (db : Database) (session : AttendanceSession.t) (sid : string) (c : R)
    (frame : option Frame) (t1 t2 : Z) :
  integrity db ->
  let out := FaceRecognitionService.mark_attendance db session sid c frame t1 t2 in
  students (fst out) = students db
  /\ face_images (fst out) = face_images db
  /\ mark_effect db session sid c frame t1 t2 (session_logs (fst out)) (snd out)
  /\ (snd out <> None <->
      (exists s, In s (students db) /\ Student.student_id s = sid)
      /\ frame <> Some BadFrame).
Proof. apply mark_attendance_effect. Qed.

Lemma mark_attendance_outcome_witness :
  integrity Sample.marked_db
  /\ snd (FaceRecognitionService.mark_attendance
            Sample.marked_db Sample.lecture "S1" (1 / 2)%R None 20 21) <> None.
Proof.
  assert (Hint : integrity Sample.marked_db).
  { constructor; cbn.
    - exact (student_pk Sample.db sample_integrity).
    - repeat constructor. intros [].
    - repeat constructor. intros []. }
  split; [exact Hint |].
  apply (proj2 (proj2 (proj2 (mark_attendance_outcome
                                Sample.marked_db Sample.lecture "S1" (1 / 2)%R
                                None 20 21 Hint)))).
  split; [exists Sample.alice; split; [now left | reflexivity] | discriminate].
Defined.

(** Whatever its arguments, [mark_attendance] keeps the schema constraints
    and the rule that a record is present exactly when it carries a time of
    recognition; it touches no record of another (session, student); and a
    record that is present stays present: there is no way back to absent. *)
Theorem mark_attendance_preserves
    (db : Database) (session : AttendanceSession.t) (sid : string) (c : R)
    (frame : option Frame) (t1 t2 : Z) :
  integrity db ->
  let out := FaceRecognitionService.mark_attendance db session sid c frame t1 t2 in
  integrity (fst out)
  /\ (stamped db -> stamped (fst out))
  /\ (forall r, log_key r <> (AttendanceSession.id session, sid) ->
                (In r (session_logs db) <-> In r (session_logs (fst out))))
  /\ (forall r, In r (session_logs db) -> SessionLog.status r = present ->
                exists r', In r' (session_logs (fst out))
                           /\ SessionLog.id r' = SessionLog.id r
                           /\ log_key r' = log_key r
                           /\ SessionLog.status r' = present).
Proof. apply mark_attendance_keeps. Qed.

Lemma mark_attendance_preserves_witness :
  integrity Sample.db
  /\ integrity (fst (FaceRecognitionService.mark_attendance
                       Sample.db Sample.lecture "S1" (1 / 2)%R (Some BadFrame) 20 21)).
Proof.
  split; [exact sample_integrity |].
  exact (proj1 (mark_attendance_preserves Sample.db Sample.lecture "S1" (1 / 2)%R
                  (Some BadFrame) 20 21 sample_integrity)).
Defined.

(** [mark_attendance] is not atomic: for a student of the table whose frame
    [cv2.imencode] rejects, the call returns [None]; if the student had no
    record of the session, the absent record that [get_or_create] made
    stays in the table. *)
Theorem mark_attendance_failure_keeps_created_record
    (db : Database) (session : AttendanceSession.t) (s : Student.t) (c : R)
    (t1 t2 : Z) :
  integrity db ->
  In s (students db) ->
  records_of db (AttendanceSession.id session) (Student.student_id s) = [] ->
  FaceRecognitionService.mark_attendance
    db session (Student.student_id s) c (Some BadFrame) t1 t2
  = (with_session_logs db
       (session_logs db ++ [absent_record db session (Student.student_id s)]),
     None).
Proof.
  intros Hint Hs Hnone.
  destruct (objects_get_student db s (student_pk db Hint) Hs) as (s' & Hget & Hid).
  unfold FaceRecognitionService.mark_attendance. rewrite Hget.
  unfold get_or_create, objects_get. rewrite Hid.
  unfold records_of in Hnone. rewrite Hnone. reflexivity.
Qed.

Lemma sample_no_records :
  records_of Sample.db (AttendanceSession.id Sample.lecture)
             (Student.student_id Sample.alice) = [].
Proof. reflexivity. Qed.

Lemma mark_attendance_failure_keeps_created_record_witness :
  integrity Sample.db
  /\ In Sample.alice (students Sample.db)
  /\ FaceRecognitionService.mark_attendance
       Sample.db Sample.lecture "S1" (1 / 2)%R (Some BadFrame) 20 21
     = (with_session_logs Sample.db [absent_record Sample.db Sample.lecture "S1"],
        None).
Proof.
  split; [exact sample_integrity |]. split; [now left |].
  exact (mark_attendance_failure_keeps_created_record
           Sample.db Sample.lecture Sample.alice (1 / 2)%R 20 21
           sample_integrity (or_introl eq_refl) sample_no_records).
Defined.

Lemma filter_length_cons {A : Type} (p : A -> bool) (x : A) (l : list A) :
  List.length (filter p (x :: l))
  = (if p x then 1 else 0) + List.length (filter p l).
Proof. cbn [filter]. now destruct (p x). Qed.

(** A successful [mark_attendance] counts a student once in the
    statistics of the session: the total is unchanged, and the number of
    present students grows by one when the student was absent or had no
    record, and not at all when the student was already present. *)
Theorem marking_counts_a_student_once
    (db : Database) (session : AttendanceSession.t) (s : Student.t) (c : R)
    (frame : option Frame) (t1 t2 : Z) :
  integrity db ->
  In s (students db) ->
  frame <> Some BadFrame ->
  let db' := fst (FaceRecognitionService.mark_attendance
                    db session (Student.student_id s) c frame t1 t2) in
  Statistics.total_students (get_attendance_statistics db' session)
  = Statistics.total_students (get_attendance_statistics db session)
  /\ Statistics.present_count (get_attendance_statistics db' session)
     = (Statistics.present_count (get_attendance_statistics db session)
        + if existsb is_present
                     (records_of db (AttendanceSession.id session) (Student.student_id s))
          then 0 else 1)%Z.
Proof.
  intros Hint Hs Hgood db'.
  destruct (mark_attendance_effect db session (Student.student_id s) c frame t1 t2 Hint)
    as (Hst & _ & Heff & Hiff).
  fold db' in Hst, Heff.
  assert (Hsome : snd (FaceRecognitionService.mark_attendance
                         db session (Student.student_id s) c frame t1 t2) <> None).
  { apply Hiff. split; [now exists s | exact Hgood]. }
  unfold get_attendance_statistics.
  cbn [Statistics.total_students Statistics.present_count].
  rewrite Hst. split; [reflexivity |].
  set (p := fun r : SessionLog.t =>
              (SessionLog.session r =? AttendanceSession.id session) && is_present r).
  inversion Heff as [Hrows Hres | Hbad Hnone Hrows Hres
                     | old pre post _ Hkey Hdb Hrows Hres
                     | _ Hnone Hrows Hres];
    try (exfalso; apply Hsome; now rewrite <- Hres).
  - assert (Hold : In old (session_logs db))
      by (rewrite Hdb; apply in_or_app; right; now left).
    pose proof (records_of_unique db old Hint Hold) as Hrec.
    injection Hkey as Hks Hkst. rewrite Hks, Hkst in Hrec. rewrite Hrec.
    rewrite Hrows, Hdb, !filter_length_app, !filter_length_cons. cbn [existsb].
    assert (Hpm : p (marked old (Student.student_id s) c frame t1 t2) = true)
      by (unfold p; cbn; now rewrite Hks, Nat.eqb_refl).
    assert (Hpo : p old = is_present old)
      by (unfold p; now rewrite Hks, Nat.eqb_refl).
    rewrite Hpm, Hpo, orb_false_r.
    destruct (is_present old); lia.
  - unfold records_of. rewrite Hnone. cbn [existsb].
    rewrite Hrows, filter_length_app, filter_length_cons.
    assert (Hpm : p (marked (absent_record db session (Student.student_id s))
                            (Student.student_id s) c frame t1 t2) = true)
      by (unfold p; cbn; now rewrite Nat.eqb_refl).
    rewrite Hpm. cbn [filter List.length]. lia.
Qed.

Lemma marking_counts_a_student_once_witness :
  integrity Sample.db
  /\ In Sample.alice (students Sample.db)
  /\ Statistics.present_count
       (get_attendance_statistics
          (fst (FaceRecognitionService.mark_attendance
                  Sample.db Sample.lecture "S1" (1 / 2)%R None 20 21))
          Sample.lecture)
     = (Statistics.present_count (get_attendance_statistics Sample.db Sample.lecture)
        + 1)%Z.
Proof.
  split; [exact sample_integrity |]. split; [now left |].
  assert (Hgood : @None Frame <> Some BadFrame) by discriminate.
  exact (proj2 (marking_counts_a_student_once
                  Sample.db Sample.lecture Sample.alice (1 / 2)%R None 20 21
                  sample_integrity (or_introl eq_refl) Hgood)).
Defined.

(* ================================================================== *)
(** * Further properties of the streaming loop                          *)
(* ================================================================== *)

Section StreamEffect.
Import FaceRecognitionService.

Lemma stream_body_effect (self : t) (session : AttendanceSession.t)
                         (db0 : Database) (known : list encoding)
                         (ids : list string) (tick : Tick) (st : Run) :
  integrity (run_db st) ->
  run_effect db0 session st ->
  run_effect db0 session (flow_state (stream_body self session known ids tick st)).
Proof.
  intros Hint Heff. unfold stream_body.
  destruct (AttendanceSession.is_active session (tick_now tick)); [| exact Heff].
  destruct (tick_frame tick) as [frame |]; [| exact Heff].
  assert (Hstep : run_effect db0 session
            match recognize_face_from_frame self frame known ids with
            | Some (student_id, confidence) =>
                if truthy_str student_id
                   && negb (in_set student_id (recognized_students st))
                then
                  let (db', session_log) :=
                    mark_attendance (run_db st) session student_id confidence
                                    (Some frame) (tick_file_now tick)
                                    (tick_mark_now tick) in
                  mkRun db'
                        (match session_log with
                         | Some _ => student_id :: recognized_students st
                         | None => recognized_students st
                         end)
                        (mark_calls st ++ [student_id])
                else st
            | None => st
            end).
  { destruct (recognize_face_from_frame self frame known ids) as [[sid c] |];
      [| exact Heff].
    destruct (truthy_str sid && negb (in_set sid (recognized_students st)));
      [| exact Heff].
    pose proof (mark_attendance_effect (run_db st) session sid c (Some frame)
                  (tick_file_now tick) (tick_mark_now tick) Hint)
      as (Hst & Hfi & Hmark & _).
    pose proof (mark_attendance_keeps (run_db st) session sid c (Some frame)
                  (tick_file_now tick) (tick_mark_now tick) Hint)
      as (_ & Hstamp & Hothers & Hkeep).
    cbv zeta in Hst, Hfi, Hmark, Hstamp, Hothers, Hkeep.
    destruct (mark_attendance (run_db st) session sid c (Some frame)
                (tick_file_now tick) (tick_mark_now tick)) as [db' res].
    cbn [fst snd] in Hst, Hfi, Hmark, Hstamp, Hothers, Hkeep.
    destruct Heff as [Es Ef Est Epres Eoth Eseen].
    assert (Hold : forall x, In x (recognized_students st) ->
                     exists log, In log (session_logs db')
                                 /\ log_key log = (AttendanceSession.id session, x)
                                 /\ SessionLog.status log = present).
    { intros x Hx. destruct (Epres x Hx) as (log & Hlog & Hkey & Hp).
      destruct (Hkeep log Hlog Hp) as (log' & Hlog' & _ & Hkey' & Hp').
      exists log'. split; [exact Hlog' |]. split; [congruence | exact Hp']. }
    constructor; cbn [run_db recognized_students mark_calls].
    - congruence.
    - congruence.
    - auto.
    - intros x Hx. destruct res as [log |]; [| now apply Hold].
      destruct Hx as [<- | Hx]; [| now apply Hold].
      inversion Hmark as [| | old pre post _ Hkey _ Hrows Hres | _ _ Hrows Hres].
      + exists (marked old sid c (Some frame) (tick_file_now tick) (tick_mark_now tick)).
        rewrite Hrows, in_app_iff. cbn [In]. auto.
      + exists (marked (absent_record (run_db st) session sid) sid c (Some frame)
                       (tick_file_now tick) (tick_mark_now tick)).
        rewrite Hrows, in_app_iff. cbn [In]. auto.
    - intros r Hr. rewrite (Eoth r Hr). apply Hothers.
      intros Hk. apply Hr. unfold log_key in Hk. now injection Hk.
    - intros x Hx. apply in_or_app.
      destruct res as [log |]; [| left; now apply Eseen].
      destruct Hx as [<- | Hx]; [right; now left | left; now apply Eseen]. }
  destruct frame; [exact Hstep |].
  destruct (Z.land (tick_key tick) 255 =? 113)%Z; exact Hstep.
Qed.

Lemma stream_loop_effect (self : t) (session : AttendanceSession.t)
                         (db0 : Database) (known : list encoding)
                         (ids : list string) (ticks : list Tick) :
  (forall sid, In sid ids ->
               exists s, In s (students db0) /\ Student.student_id s = sid) ->
  forall st, run_invariant db0 st -> run_effect db0 session st ->
             run_effect db0 session (stream_loop self session known ids ticks st).
Proof.
  intros Hknown. induction ticks as [| tick ticks IH]; intros st Hinv Heff; [exact Heff |].
  cbn [stream_loop].
  pose proof (stream_body_invariant self session db0 known ids tick st Hknown Hinv) as Hi.
  pose proof (stream_body_effect self session db0 known ids tick st
                (run_integrity db0 st Hinv) Heff) as He.
  destruct (stream_body self session known ids tick st) as [st' | st'];
    cbn [flow_state] in Hi, He; [now apply IH | exact He].
Qed.

Lemma process_video_stream_effect (self : t) (db : Database)
                                  (session : AttendanceSession.t) (ticks : list Tick) :
  integrity db -> run_effect db session (process_video_stream self db session ticks).
Proof.
  intros Hint. unfold process_video_stream, stream_known_faces.
  assert (Hstart : run_invariant db (mkRun db [] [])).
  { constructor; cbn; auto using NoDup_nil. }
  assert (Hstart' : run_effect db session (mkRun db [] [])).
  { constructor; cbn; auto; try contradiction. reflexivity. }
  pose proof (load_known_faces_students db None) as Hknown.
  destruct (load_known_faces db None) as [known ids]. cbn [snd] in Hknown.
  destruct (List.length known =? 0)%nat; [exact Hstart' |].
  apply stream_loop_effect; [| exact Hstart | exact Hstart'].
  intros sid Hin. destruct (Hknown sid Hin) as (s & Hs & Hid & _). now exists s.
Qed.
End StreamEffect.

(** A run of [process_video_stream] on a database that satisfies the
    schema leaves a database that satisfies it, never touches the students,
    the face images or the records of another session, and ends with every
    student of its set of recognized students present in the session, with
    exactly one record; the set holds only students [mark_attendance] was
    called for. *)
Theorem stream_recognized_students_are_present
    (self : FaceRecognitionService.t) (db : Database)
    (session : AttendanceSession.t) (ticks : list FaceRecognitionService.Tick) :
  integrity db ->
  let run := FaceRecognitionService.process_video_stream self db session ticks in
  integrity (FaceRecognitionService.run_db run)
  /\ students (FaceRecognitionService.run_db run) = students db
  /\ face_images (FaceRecognitionService.run_db run) = face_images db
  /\ (stamped db -> stamped (FaceRecognitionService.run_db run))
  /\ (forall sid,
         In sid (FaceRecognitionService.recognized_students run) ->
         In sid (FaceRecognitionService.mark_calls run)
         /\ exists log,
              records_of (FaceRecognitionService.run_db run)
                         (AttendanceSession.id session) sid = [log]
              /\ SessionLog.status log = present)
  /\ (forall r, SessionLog.session r <> AttendanceSession.id session ->
                (In r (session_logs db)
                 <-> In r (session_logs (FaceRecognitionService.run_db run)))).
Proof.
  intros Hint run.
  destruct (process_video_stream_invariant self db session ticks Hint) as [Hint' _ _ _].
  destruct (process_video_stream_effect self db session ticks Hint)
    as [Es Ef Est Epres Eoth Eseen].
  fold run in Hint', Es, Ef, Est, Epres, Eoth, Eseen.
  split; [exact Hint' |]. split; [exact Es |]. split; [exact Ef |].
  split; [exact Est |]. split; [| exact Eoth].
  intros sid Hsid. split; [now apply Eseen |].
  destruct (Epres sid Hsid) as (log & Hlog & Hkey & Hp).
  exists log. split; [| exact Hp].
  pose proof (records_of_unique _ log Hint' Hlog) as Hrec.
  unfold log_key in Hkey. injection Hkey as Hks Hkst. now rewrite Hks, Hkst in Hrec.
Qed.

Lemma stream_recognized_students_are_present_witness :
  integrity Sample.db
  /\ In "S1"%string
        (FaceRecognitionService.recognized_students
           (FaceRecognitionService.process_video_stream
              FaceRecognitionService.init Sample.db Sample.lecture Sample.ticks))
  /\ exists log,
       records_of (FaceRecognitionService.run_db
                     (FaceRecognitionService.process_video_stream
                        FaceRecognitionService.init Sample.db Sample.lecture Sample.ticks))
                  (AttendanceSession.id Sample.lecture) "S1" = [log]
       /\ SessionLog.status log = present.
Proof.
  assert (Hseen : In "S1"%string
                     (FaceRecognitionService.recognized_students
                        (FaceRecognitionService.process_video_stream
                           FaceRecognitionService.init Sample.db Sample.lecture
                           Sample.ticks)))
    by (rewrite sample_run; now left).
  split; [exact sample_integrity |]. split; [exact Hseen |].
  exact (proj2 (proj1 (proj2 (proj2 (proj2 (proj2
           (stream_recognized_students_are_present
              FaceRecognitionService.init Sample.db Sample.lecture Sample.ticks
              sample_integrity))))) "S1"%string Hseen)).
Defined.

Section StreamStops.
Import FaceRecognitionService.

Lemma stream_loop_stops_at (self : t) (session : AttendanceSession.t)
                           (known : list encoding) (ids : list string)
                           (tick : Tick) (rest pre : list Tick) :
  AttendanceSession.is_active session (tick_now tick) = false
  \/ tick_frame tick = None ->
  forall st,
    stream_loop self session known ids (pre ++ tick :: rest) st
    = stream_loop self session known ids pre st.
Proof.
  intros Hstop. induction pre as [| t pre IH]; intros st.
  - cbn [app stream_loop]. unfold stream_body.
    destruct Hstop as [-> | ->]; [reflexivity |].
    now destruct (AttendanceSession.is_active session (tick_now tick)).
  - cbn [app stream_loop].
    destruct (stream_body self session known ids t st); [apply IH | reflexivity].
Qed.

Lemma stream_loop_quits_at (self : t) (session : AttendanceSession.t)
                           (known : list encoding) (ids : list string)
                           (tick : Tick) (rest pre : list Tick) :
  (Z.land (tick_key tick) 255 =? 113)%Z = true ->
  forall st,
    stream_loop self session known ids (pre ++ tick :: rest) st
    = stream_loop self session known ids (pre ++ [tick]) st.
Proof.
  intros Hq. induction pre as [| t pre IH]; intros st.
  - cbn [app stream_loop].
    assert (Hbreak : exists st', stream_body self session known ids tick st = Break st').
    { unfold stream_body. rewrite Hq.
      destruct (AttendanceSession.is_active session (tick_now tick)); [| eauto].
      destruct (tick_frame tick) as [[| faces jpeg] |]; eauto. }
    destruct Hbreak as [st' ->]. reflexivity.
  - cbn [app stream_loop].
    destruct (stream_body self session known ids t st); [apply IH | reflexivity].
Qed.
End StreamStops.

(** The loop of [process_video_stream] reads nothing after it has stopped:
    once the session is not active at the time of a tick (its status is not
    active or the time is outside its window) or the source has no frame,
    the run is the run over the ticks before; after a tick on which the key
    [q] is read, the later ticks do not matter; and on an empty known set
    the run does nothing at all. *)
Theorem stream_stops
    (self : FaceRecognitionService.t) (db : Database)
    (session : AttendanceSession.t)
    (pre rest : list FaceRecognitionService.Tick) (tick : FaceRecognitionService.Tick) :
  (AttendanceSession.is_active session (FaceRecognitionService.tick_now tick) = false
   \/ FaceRecognitionService.tick_frame tick = None ->
   FaceRecognitionService.process_video_stream self db session (pre ++ tick :: rest)
   = FaceRecognitionService.process_video_stream self db session pre)
  /\ ((Z.land (FaceRecognitionService.tick_key tick) 255 =? 113)%Z = true ->
      FaceRecognitionService.process_video_stream self db session (pre ++ tick :: rest)
      = FaceRecognitionService.process_video_stream self db session (pre ++ [tick]))
  /\ (fst (FaceRecognitionService.load_known_faces db None) = [] ->
      FaceRecognitionService.process_video_stream self db session (pre ++ tick :: rest)
      = FaceRecognitionService.mkRun db [] []).
Proof.
  unfold FaceRecognitionService.process_video_stream,
         FaceRecognitionService.stream_known_faces.
  destruct (FaceRecognitionService.load_known_faces db None) as [known ids].
  cbn [fst].
  split; [| split].
  - intros Hstop. destruct (List.length known =? 0)%nat; [reflexivity |].
    now apply stream_loop_stops_at.
  - intros Hq. destruct (List.length known =? 0)%nat; [reflexivity |].
    now apply stream_loop_quits_at.
  - intros ->. reflexivity.
Qed.

Lemma stream_stops_witness :
  AttendanceSession.is_active Sample.lecture 101 = false
  /\ FaceRecognitionService.process_video_stream
       FaceRecognitionService.init Sample.db Sample.lecture
       ([] ++ FaceRecognitionService.mkTick 101 (Some (GoodFrame [[0; 0]%R] None)) 101 101 0
           :: Sample.ticks)
     = FaceRecognitionService.process_video_stream
         FaceRecognitionService.init Sample.db Sample.lecture [].
Proof.
  split; [reflexivity |].
  exact (proj1 (stream_stops FaceRecognitionService.init Sample.db Sample.lecture []
                  Sample.ticks
                  (FaceRecognitionService.mkTick 101 (Some (GoodFrame [[0; 0]%R] None))
                                                 101 101 0))
               (or_introl eq_refl)).
Defined.

(* ================================================================== *)
(** * Properties of the views                                           *)
(* ================================================================== *)

Section CreateSession.

(** A selection of rows keeps a key unique. *)
Lemma filter_keeps_unique_key {Row Key : Type} (key : Row -> Key)
                              (keep : Row -> bool) (rows : list Row)
                              (Hunique : NoDup (map key rows)) :
  NoDup (map key (filter keep rows)).
Proof.
  induction rows as [| row rows IH]; [exact Hunique |].
  cbn [map] in Hunique. apply NoDup_cons_iff in Hunique.
  destruct Hunique as [Hrow Hrows].
  cbn [filter]. destruct (keep row); [| now apply IH].
  cbn [map]. constructor; [| now apply IH].
  intros Hin. apply Hrow. apply in_map_iff in Hin. destruct Hin as (y & Hy & Hyin).
  apply filter_In in Hyin. rewrite <- Hy. apply in_map. tauto.
Qed.

Lemma existsb_filter_nil {A : Type} (p : A -> bool) (l : list A) :
  existsb p l = false <-> filter p l = [].
Proof.
  induction l as [| x l IH]; cbn; [tauto |].
  destruct (p x); cbn; [split; discriminate | exact IH].
Qed.

Lemma create_logs_fresh (session : AttendanceSession.t) (studs : list Student.t) :
  forall db : Database,
    integrity db ->
    NoDup (map Student.student_id studs) ->
    (forall s, In s studs ->
               records_of db (AttendanceSession.id session) (Student.student_id s) = []) ->
    exists news,
      Views.create_logs db session studs
      = Some (with_session_logs db (session_logs db ++ news))
      /\ map SessionLog.student news = map Student.student_id studs
      /\ Forall (is_new_absent session) news
      /\ integrity (with_session_logs db (session_logs db ++ news)).
Proof.
  induction studs as [| s studs IH]; intros db Hint Hnd Hfresh.
  - exists []. cbn. rewrite app_nil_r.
    split; [now destruct db |]. split; [reflexivity |]. split; [constructor |].
    apply (integrity_same_tables db); [reflexivity | reflexivity | exact Hint].
  - cbn [map] in Hnd. apply NoDup_cons_iff in Hnd. destruct Hnd as [Hs Hnd].
    cbn [Views.create_logs].
    assert (Hnone : filter (log_of (AttendanceSession.id session) (Student.student_id s))
                           (session_logs db) = [])
      by (apply (Hfresh s); now left).
    rewrite (proj2 (existsb_filter_nil _ _) Hnone).
    fold (absent_record db session (Student.student_id s)).
    set (db1 := with_session_logs db
                  (session_logs db ++ [absent_record db session (Student.student_id s)])).
    assert (Hint1 : integrity db1).
    { apply (integrity_append db db1 session (Student.student_id s)
               (absent_record db session (Student.student_id s)));
        auto; reflexivity. }
    destruct (IH db1 Hint1 Hnd) as (news & Ecreate & Hmap & Hall & Hint2).
    { intros s' Hs'. unfold records_of, db1. cbn [session_logs with_session_logs].
      pose proof (Hfresh s' (or_intror Hs')) as Hf. unfold records_of in Hf.
      rewrite filter_app, Hf. cbn [app filter].
      destruct (log_of (AttendanceSession.id session) (Student.student_id s')
                       (absent_record db session (Student.student_id s))) eqn:E;
        [| reflexivity].
      exfalso. apply log_of_key in E. unfold log_key in E. cbn in E.
      injection E as E. apply Hs. rewrite E. now apply in_map. }
    exists (absent_record db session (Student.student_id s) :: news).
    unfold db1 in Ecreate, Hint2. cbn [session_logs with_session_logs] in Ecreate, Hint2.
    rewrite <- app_assoc in Ecreate, Hint2. cbn [app] in Ecreate, Hint2.
    split; [exact Ecreate |]. split; [cbn; now rewrite Hmap |].
    split; [| exact Hint2].
    constructor; [repeat split | exact Hall].
Qed.

End CreateSession.



(** Creating the records of a session that has none and asking for its
    statistics: every active student of the course is counted absent,
    nobody present, and the percentage is zero. *)
Theorem new_session_statistics (db : Database) (session : AttendanceSession.t) :
  integrity db ->
  (forall r, In r (session_logs db) ->
             SessionLog.session r <> AttendanceSession.id session) ->
  exists db',
    Views.create_session_logs db session = Some db'
    /\ get_attendance_statistics db' session
       = Statistics.mk
           (Statistics.total_students (get_attendance_statistics db session))
           0
           (Statistics.total_students (get_attendance_statistics db session))
           0%R
    /\ Z.of_nat (List.length (filter (fun r => SessionLog.session r
                                               =? AttendanceSession.id session)
                                     (session_logs db')))
       = Statistics.total_students (get_attendance_statistics db session).
Proof.
  intros Hint Hnew.
  destruct (create_logs_fresh session
              (filter (active_in_course (AttendanceSession.course session)) (students db))
              db Hint (filter_keeps_unique_key _ _ _ (student_pk db Hint)))
    as (news & Ecreate & Hmap & Hall & _).
  { intros s _. unfold records_of.
    destruct (filter _ _) as [| r l] eqn:E; [reflexivity | exfalso].
    assert (Hr : In r (filter (log_of (AttendanceSession.id session)
                                      (Student.student_id s)) (session_logs db)))
      by (rewrite E; now left).
    apply filter_In in Hr. destruct Hr as [Hr Hk]. apply log_of_key in Hk.
    apply (Hnew r Hr). unfold log_key in Hk. now injection Hk. }
  exists (with_session_logs db (session_logs db ++ news)).
  split; [exact Ecreate |].
  assert (Hold : forall p : SessionLog.t -> bool,
             filter (fun r => (SessionLog.session r =? AttendanceSession.id session)
                              && p r) (session_logs db) = []).
  { intros p. apply existsb_filter_nil. apply not_true_is_false. intros Hex.
    apply existsb_exists in Hex. destruct Hex as (r & Hr & Hp).
    apply andb_prop in Hp. destruct Hp as [Hp _]. apply Nat.eqb_eq in Hp.
    now apply (Hnew r Hr). }
  assert (Hpresent : filter (fun r => (SessionLog.session r
                                       =? AttendanceSession.id session) && is_present r)
                            news = []).
  { clear Ecreate Hmap. induction Hall as [| r news (_ & Habs & _) _ IH]; [reflexivity |].
    cbn [filter]. unfold is_present at 1. rewrite Habs, andb_false_r. exact IH. }
  assert (Hcount : List.length (filter (fun r => SessionLog.session r
                                                 =? AttendanceSession.id session) news)
                   = List.length news).
  { clear Ecreate Hmap Hpresent.
    induction Hall as [| r news (Hs & _) _ IH]; [reflexivity |].
    cbn [filter]. rewrite Hs, Nat.eqb_refl. cbn [List.length]. now rewrite IH. }
  unfold get_attendance_statistics.
  cbn [students session_logs with_session_logs Statistics.total_students].
  split.
  - rewrite filter_app, Hold, Hpresent. cbn [app List.length].
    rewrite Z.sub_0_r.
    destruct (0 <? _)%Z; [| reflexivity].
    f_equal. unfold Rdiv. now rewrite Rmult_0_l, Rmult_0_l.
  - rewrite filter_app.
    assert (Hold' : filter (fun r => SessionLog.session r =? AttendanceSession.id session)
                           (session_logs db) = []).
    { rewrite <- (Hold (fun _ => true)). apply filter_ext.
      intros r. now rewrite andb_true_r. }
    rewrite Hold'. cbn [app]. rewrite Hcount.
    rewrite <- (length_map SessionLog.student), Hmap, length_map. reflexivity.
Qed.

Lemma new_session_statistics_witness :
  integrity Sample.db
  /\ (forall r, In r (session_logs Sample.db) ->
                SessionLog.session r <> AttendanceSession.id Sample.lecture)
  /\ exists db',
       Views.create_session_logs Sample.db Sample.lecture = Some db'
       /\ get_attendance_statistics db' Sample.lecture
          = Statistics.mk
              (Statistics.total_students
                 (get_attendance_statistics Sample.db Sample.lecture))
              0
              (Statistics.total_students
                 (get_attendance_statistics Sample.db Sample.lecture))
              0%R
       /\ Z.of_nat (List.length (filter (fun r => SessionLog.session r
                                                  =? AttendanceSession.id Sample.lecture)
                                        (session_logs db')))
          = Statistics.total_students
              (get_attendance_statistics Sample.db Sample.lecture).
Proof.
  assert (Hnew : forall r, In r (session_logs Sample.db) ->
                           SessionLog.session r <> AttendanceSession.id Sample.lecture)
    by (intros r []).
  split; [exact sample_integrity |]. split; [exact Hnew |].
  exact (new_session_statistics Sample.db Sample.lecture sample_integrity Hnew).
Defined.

Section RecognizeApi.
Import FaceRecognitionService.



End RecognizeApi.



(* ================================================================== *)
(** * Further properties of initialisation and statistics               *)
(* ================================================================== *)



Section StatisticsBounds.

Lemma present_logs_le_cohort (db : Database) (session : AttendanceSession.t) :
  integrity db ->
  (forall r, In r (session_logs db) ->
             SessionLog.session r = AttendanceSession.id session ->
             SessionLog.status r = present ->
             exists s, In s (students db)
                       /\ Student.student_id s = SessionLog.student r
                       /\ active_in_course (AttendanceSession.course session) s = true) ->
  List.length (filter (fun r => (SessionLog.session r =? AttendanceSession.id session)
                                && is_present r) (session_logs db))
  <= List.length (filter (active_in_course (AttendanceSession.course session))
                         (students db)).
Proof.
  intros Hint Hcohort.
  set (p := fun r => (SessionLog.session r =? AttendanceSession.id session)
                     && is_present r).
  set (P := filter p (session_logs db)).
  set (C := filter (active_in_course (AttendanceSession.course session)) (students db)).
  assert (HP : forall r, In r P ->
                 In r (session_logs db)
                 /\ SessionLog.session r = AttendanceSession.id session
                 /\ SessionLog.status r = present).
  { intros r Hr. apply filter_In in Hr. destruct Hr as [Hr Hp]. unfold p in Hp.
    apply andb_prop in Hp. destruct Hp as [Hs Hpr]. apply Nat.eqb_eq in Hs.
    unfold is_present in Hpr. destruct (SessionLog.status r); [auto | discriminate]. }
  assert (Hnd : NoDup (map SessionLog.student P)).
  { apply (NoDup_map_inv (pair (AttendanceSession.id session))).
    rewrite map_map.
    rewrite (map_ext_in _ log_key).
    - apply filter_keeps_unique_key. apply Hint.
    - intros r Hr. destruct (HP r Hr) as (_ & Hs & _). unfold log_key. now rewrite Hs. }
  rewrite <- (length_map SessionLog.student P), <- (length_map Student.student_id C).
  apply NoDup_incl_length; [exact Hnd |].
  intros x Hx. apply in_map_iff in Hx. destruct Hx as (r & <- & Hr).
  destruct (HP r Hr) as (Hin & Hs & Hp).
  destruct (Hcohort r Hin Hs Hp) as (s & Hsin & Hid & Hact).
  rewrite <- Hid. apply in_map. apply filter_In. auto.
Qed.
End StatisticsBounds.

(** When the schema constraints hold and every present record of the
    session belongs to an active student of the session's course, the
    statistics are consistent: the present count is at most the total, the
    absent count is not negative, and the percentage lies between 0 and
    100. *)
Theorem statistics_bounds (db : Database) (session : AttendanceSession.t) :
  integrity db ->
  (forall r, In r (session_logs db) ->
             SessionLog.session r = AttendanceSession.id session ->
             SessionLog.status r = present ->
             exists s, In s (students db)
                       /\ Student.student_id s = SessionLog.student r
                       /\ active_in_course (AttendanceSession.course session) s = true) ->
  let stats := get_attendance_statistics db session in
  (0 <= Statistics.present_count stats <= Statistics.total_students stats)%Z
  /\ (0 <= Statistics.absent_count stats <= Statistics.total_students stats)%Z
  /\ (0 <= Statistics.attendance_percentage stats <= 100)%R.
Proof.
  intros Hint Hcohort.
  pose proof (present_logs_le_cohort db session Hint Hcohort) as Hle.
  cbv zeta. unfold get_attendance_statistics.
  cbn [Statistics.total_students Statistics.present_count Statistics.absent_count
       Statistics.attendance_percentage].
  set (t := Z.of_nat (List.length (filter (active_in_course
                                             (AttendanceSession.course session))
                                          (students db)))) in *.
  set (p := Z.of_nat (List.length (filter (fun r => (SessionLog.session r
                                                     =? AttendanceSession.id session)
                                                    && is_present r)
                                          (session_logs db)))) in *.
  assert (Hp : (0 <= p <= t)%Z) by (unfold p, t; lia).
  split; [exact Hp |]. split; [lia |].
  destruct (Z.ltb_spec 0 t) as [Ht | Ht]; [| lra].
  assert (Hpr : (0 <= IZR p <= IZR t)%R) by (split; apply IZR_le; lia).
  assert (Htr : (0 < IZR t)%R) by (apply (IZR_lt 0); lia).
  pose proof (Rinv_0_lt_compat _ Htr) as Hinv.
  assert (Hone : (IZR t * / IZR t = 1)%R) by (apply Rinv_r; lra).
  unfold Rdiv. split; nra.
Qed.

Lemma statistics_bounds_witness :
  integrity Sample.marked_db
  /\ (0 <= Statistics.attendance_percentage
             (get_attendance_statistics Sample.marked_db Sample.lecture) <= 100)%R.
Proof.
  assert (Hint : integrity Sample.marked_db).
  { constructor; cbn.
    - exact (student_pk Sample.db sample_integrity).
    - repeat constructor. intros [].
    - repeat constructor. intros []. }
  split; [exact Hint |].
  refine (proj2 (proj2 (statistics_bounds Sample.marked_db Sample.lecture Hint _))).
  intros r [<- | []] _ _. exists Sample.alice.
  split; [now left |]. split; reflexivity.
Defined.

(* ================================================================== *)
(** * Properties of the capture of the three angles                     *)
(* ================================================================== *)

Section Capture.

Lemma capture_return_images (images out : list (Angle * Frame)) :
  capture_return images = CaptureImages out -> out = images /\ List.length images = 3.
Proof.
  unfold capture_return.
  destruct (Nat.eqb_spec (List.length images) 3); [| discriminate].
  intros [= <-]. auto.
Qed.

Lemma capture_loop_images (ticks : list CaptureTick) :
  forall (todo : list Angle) (images out : list (Angle * Frame)),
    List.length images + List.length todo = 3 ->
    capture_loop ticks todo images = CaptureImages out ->
    exists captured,
      out = images ++ captured
      /\ map fst captured = todo
      /\ (forall a f, In (a, f) captured ->
                      exists tick, In tick ticks
                                   /\ capture_frame tick = Some f
                                   /\ f <> BadFrame
                                   /\ Z.land (capture_key tick) 255 = 32%Z)
      /\ List.length todo <= space_presses ticks.
Proof.
  assert (Hdone : forall ticks images out,
             capture_return images = CaptureImages out ->
             exists captured,
               out = images ++ captured
               /\ map fst captured = []
               /\ (forall a f, In (a, f) captured ->
                               exists tick, In tick ticks
                                            /\ capture_frame tick = Some f
                                            /\ f <> BadFrame
                                            /\ Z.land (capture_key tick) 255 = 32%Z)
               /\ List.length (@nil Angle) <= space_presses ticks).
  { intros tk images out H. apply capture_return_images in H. destruct H as [-> _].
    exists []. rewrite app_nil_r. cbn. repeat split; [contradiction | lia]. }
  induction ticks as [| tick rest IH]; intros todo images out Hlen Hrun.
  - destruct todo as [| a later]; [now apply Hdone | discriminate].
  - destruct todo as [| a later]; [now apply Hdone |].
    cbn [capture_loop] in Hrun. cbn [List.length] in Hlen.
    destruct (capture_frame tick) as [[| faces jpeg] |] eqn:Eframe.
    + discriminate.
    + destruct (Z.eqb_spec (Z.land (capture_key tick) 255) 32) as [Hkey | Hkey].
      * destruct (IH later (images ++ [(a, GoodFrame faces jpeg)]) out)
          as (captured & Hout & Hmap & Hfrom & Hcount);
          [rewrite length_app; cbn; lia | exact Hrun |].
        exists ((a, GoodFrame faces jpeg) :: captured).
        split; [now rewrite <- app_assoc in Hout |].
        split; [cbn; now rewrite Hmap |]. split.
        -- intros a' f [[= <- <-] | Hin].
           ++ exists tick. split; [now left |]. split; [exact Eframe |].
              split; [discriminate | exact Hkey].
           ++ destruct (Hfrom a' f Hin) as (tk & Htk & H). exists tk.
              split; [now right | exact H].
        -- unfold space_presses in *. cbn [filter]. rewrite Hkey. cbn. lia.
      * destruct (Z.land (capture_key tick) 255 =? 113)%Z; [discriminate |].
        destruct (IH (a :: later) images out Hlen Hrun)
          as (captured & Hout & Hmap & Hfrom & Hcount).
        exists captured. split; [exact Hout |]. split; [exact Hmap |]. split.
        -- intros a' f Hin. destruct (Hfrom a' f Hin) as (tk & Htk & H). exists tk.
           split; [now right | exact H].
        -- unfold space_presses in *. cbn [filter].
           destruct (Z.eqb_spec (Z.land (capture_key tick) 255) 32); [contradiction |].
           exact Hcount.
    + apply capture_return_images in Hrun. destruct Hrun as [_ Hthree]. lia.
Qed.
End Capture.

(** [capture_multi_angle_images] returns images only as the complete set:
    exactly one image for front, left and right, in this order, each of
    them a frame that was read together with the space bar; this needs the
    space bar on at least three ticks.  A cancelled or exhausted capture
    never returns a partial set. *)
Theorem capture_returns_the_three_angles
    (ticks : list CaptureTick) (images : list (Angle * Frame)) :
  capture_multi_angle_images ticks = CaptureImages images ->
  map fst images = [front; left; right]
  /\ (forall a f, In (a, f) images ->
                  exists tick, In tick ticks
                               /\ capture_frame tick = Some f
                               /\ f <> BadFrame
                               /\ Z.land (capture_key tick) 255 = 32%Z)
  /\ 3 <= space_presses ticks.
Proof.
  intros Hrun. unfold capture_multi_angle_images in Hrun.
  destruct (capture_loop_images ticks [front; left; right] [] images eq_refl Hrun)
    as (captured & -> & Hmap & Hfrom & Hcount).
  cbn [app]. auto.
Qed.

Lemma capture_returns_the_three_angles_witness :
  let shot := mkCaptureTick (Some (GoodFrame [[0; 0]%R] None)) 32 in
  let idle := mkCaptureTick (Some (GoodFrame [] None)) 255 in
  capture_multi_angle_images [shot; idle; shot; shot; idle]
  = CaptureImages [(front, GoodFrame [[0; 0]%R] None);
                   (left, GoodFrame [[0; 0]%R] None);
                   (right, GoodFrame [[0; 0]%R] None)]
  /\ 3 <= space_presses [shot; idle; shot; shot; idle].
Proof.
  cbv zeta.
  assert (Hrun : capture_multi_angle_images
                   [mkCaptureTick (Some (GoodFrame [[0; 0]%R] None)) 32;
                    mkCaptureTick (Some (GoodFrame [] None)) 255;
                    mkCaptureTick (Some (GoodFrame [[0; 0]%R] None)) 32;
                    mkCaptureTick (Some (GoodFrame [[0; 0]%R] None)) 32;
                    mkCaptureTick (Some (GoodFrame [] None)) 255]
                 = CaptureImages [(front, GoodFrame [[0; 0]%R] None);
                                  (left, GoodFrame [[0; 0]%R] None);
                                  (right, GoodFrame [[0; 0]%R] None)])
    by reflexivity.
  split; [exact Hrun |].
  exact (proj2 (proj2 (capture_returns_the_three_angles _ _ Hrun))).
Defined.

(** How [capture_multi_angle_images] ends without images: the key [q] on a
    frame read before the third capture cancels it, a source that runs out
    of frames ends it, and both give [None] whatever was captured so far; a
    frame that [cv2] rejects makes it raise. *)
Theorem capture_gives_up
    (pre rest : list CaptureTick) (tick : CaptureTick)
    (images : list (Angle * Frame)) :
  capture_multi_angle_images pre = CaptureWaiting images ->
  (capture_frame tick = None ->
   capture_multi_angle_images (pre ++ tick :: rest) = CaptureNone)
  /\ (capture_frame tick = Some BadFrame ->
      capture_multi_angle_images (pre ++ tick :: rest) = CaptureRaises)
  /\ (forall faces jpeg,
         capture_frame tick = Some (GoodFrame faces jpeg) ->
         Z.land (capture_key tick) 255 = 113%Z ->
         capture_multi_angle_images (pre ++ tick :: rest) = CaptureNone).
Proof.
  unfold capture_multi_angle_images.
  assert (Hgen : forall pre todo acc,
             List.length acc + List.length todo = 3 ->
             capture_loop pre todo acc = CaptureWaiting images ->
             exists a later,
               List.length images < 3
               /\ forall more, capture_loop (pre ++ more) todo acc
                               = capture_loop more (a :: later) images).
  { clear pre. induction pre as [| t pre IH]; intros todo acc Hlen Hrun.
    - destruct todo as [| a later].
      + cbn in Hrun. unfold capture_return in Hrun.
        destruct (List.length acc =? 3)%nat; discriminate.
      + cbn in Hrun. injection Hrun as <-. exists a, later.
        cbn [List.length] in Hlen. split; [lia | reflexivity].
    - destruct todo as [| a later].
      + cbn in Hrun. unfold capture_return in Hrun.
        destruct (List.length acc =? 3)%nat; discriminate.
      + cbn [capture_loop app] in Hrun |- *. cbn [List.length] in Hlen.
        destruct (capture_frame t) as [[| faces jpeg] |].
        * discriminate.
        * destruct (Z.land (capture_key t) 255 =? 32)%Z.
          -- apply (IH later (acc ++ [(a, GoodFrame faces jpeg)]));
               [rewrite length_app; cbn; lia | exact Hrun].
          -- destruct (Z.land (capture_key t) 255 =? 113)%Z; [discriminate |].
             apply (IH (a :: later) acc); [cbn; lia | exact Hrun].
        * unfold capture_return in Hrun.
          destruct (List.length acc =? 3)%nat; discriminate. }
  intros Hrun.
  destruct (Hgen pre [front; left; right] [] eq_refl Hrun) as (a & later & Hlt & Hmore).
  rewrite Hmore. cbn [capture_loop].
  split; [| split].
  - intros ->. unfold capture_return.
    destruct (Nat.eqb_spec (List.length images) 3); [lia | reflexivity].
  - intros ->. reflexivity.
  - intros faces jpeg -> Hq. rewrite Hq. reflexivity.
Qed.

Lemma capture_gives_up_witness :
  let shot := mkCaptureTick (Some (GoodFrame [[0; 0]%R] None)) 32 in
  let quit := mkCaptureTick (Some (GoodFrame [[0; 0]%R] None)) 113 in
  capture_multi_angle_images [shot; shot]
  = CaptureWaiting [(front, GoodFrame [[0; 0]%R] None); (left, GoodFrame [[0; 0]%R] None)]
  /\ capture_multi_angle_images ([shot; shot] ++ quit :: [shot]) = CaptureNone.
Proof.
  cbv zeta.
  assert (Hrun : capture_multi_angle_images
                   [mkCaptureTick (Some (GoodFrame [[0; 0]%R] None)) 32;
                    mkCaptureTick (Some (GoodFrame [[0; 0]%R] None)) 32]
                 = CaptureWaiting [(front, GoodFrame [[0; 0]%R] None);
                                   (left, GoodFrame [[0; 0]%R] None)])
    by reflexivity.
  split; [exact Hrun |].
  exact (proj2 (proj2 (capture_gives_up
                         _ [mkCaptureTick (Some (GoodFrame [[0; 0]%R] None)) 32]
                         (mkCaptureTick (Some (GoodFrame [[0; 0]%R] None)) 113)
                         _ Hrun))
               [[0; 0]%R] None eq_refl eq_refl).
Defined.
